(** * pxtblocks/fields/field_asset.ts: the asset field editor

    A shallow embedding of [FieldAssetEditor] and [BlocklyTilemapChange].
    The two classes are glue between a Blockly field, the shared tilemap
    project ([pxt.react.getTilemapProject()]) and Blockly's event stream, so
    the embedding is a state-and-exception monad over

    - [this]: the fields of the object the method runs on,
    - [host]: the state of everything outside the file (project, Blockly,
      the React editor views), reached only through the [Host] interface,
    - [log]: the effectful host calls made so far, oldest first.

    Assets cross the project boundary by value: what the project hands out
    and what it is given are snapshots, and the in-place updates the source
    makes on [this.asset] are functional updates of the field's own copy.

    A host call returns before any callback it gives rise to runs: the
    callbacks of the field ([assetChangeListener], the [onHide] handler)
    are entry points of their own. While an edit is pending the listener
    does nothing, so for the [onHide] handler this is no restriction.

    Host calls are taken as returning. What throws is the file's own use
    of [undefined]: reading through [this.asset], [asset.meta],
    [meta.blockIDs] or [this.fieldGroup_] when the object is not there,
    and handing [undefined] to [pxt.assetEquals] and to
    [pxt.sprite.Bitmap.fromData], which read from it. *)

From Stdlib Require Import ZArith String Ascii List Bool Lia.
From stdpp Require Import base option list strings gmap.

Local Open Scope Z_scope.
Local Open Scope string_scope.

(** ** Data owned by pxtlib and Blockly *)

(** Modelled from the spec: [pxt.AssetType] is declared in pxtlib, outside
    this file; the spec names the asset kinds "image, animation, tile, or
    tilemap", and these are the four cases the source switches on. *)
Inductive AssetType := Image | Tile | Tilemap | Animation.

#[global] Instance AssetType_eq_dec : EqDecision AssetType.
Proof. solve_decision. Defined.

(** [pxt.sprite.BitmapData]; only handed on to the preview renderers. *)
Record BitmapData := {
  bm_width : Z;
  bm_height : Z;
  bm_pixels : list Z
}.

(** [asset.meta]. [displayName] and [blockIDs] may both be absent. *)
Record AssetMetadata := {
  displayName : option string;
  blockIDs : option (list string)
}.

Definition emptyMeta : AssetMetadata :=
  {| displayName := None; blockIDs := None |}.

Record TileAsset := {
  tile_id : string;
  tile_meta : option AssetMetadata;
  tile_bitmap : BitmapData
}.

Record TileSet := {
  tileWidth : Z;
  tiles : list TileAsset
}.

Record TilemapData := {
  tileset : TileSet;
  projectReferences : option (list string);
  layers : BitmapData
}.

(** [pxt.Asset] is a union discriminated by [type]; the payload decides it.
    Of the members pxtlib declares, those this file reads or writes. *)
Inductive AssetBody :=
| ImageBody (bitmap : BitmapData)
| TileBody (bitmap : BitmapData)
| AnimationBody (frames : list BitmapData) (interval : Z)
| TilemapBody (data : TilemapData).

Record Asset := {
  asset_id : string;
  asset_meta : option AssetMetadata;
  asset_body : AssetBody
}.

Definition asset_type (a : Asset) : AssetType :=
  match asset_body a with
  | ImageBody _ => Image
  | TileBody _ => Tile
  | AnimationBody _ _ => Animation
  | TilemapBody _ => Tilemap
  end.

(** Numbers as [parseInt] can return them. *)
Inductive JsNumber := NaN | Infinity (negative : bool) | Integral (z : Z).

Definition isNaN (n : JsNumber) : bool :=
  match n with NaN => true | _ => false end.

(** Values of type [any] stored in a change event. *)
Inductive JsValue := JsUndefined | JsNull | JsString (s : string) | JsNum (z : Z).

(** [pxtc.BlocksInfo] and the editor's persistent data are opaque here. *)
Inductive BlocksInfo := BlocksInfoRef (n : nat).
Inductive PersistentData := PersistentDataRef (n : nat).

Record Block := {
  blockId : string;
  isInFlyout : bool
}.

(** ** The options of the field *)

Record FieldAssetEditorOptions := {
  o_initWidth : option string;
  o_initHeight : option string;
  o_disableResize : option string
}.

(** [ParsedFieldAssetEditorOptions]; [showEditor_] also hangs the blocks
    info on the object before passing it to the editor view. *)
Record ParsedFieldAssetEditorOptions := {
  initWidth : JsNumber;
  initHeight : JsNumber;
  disableResize : bool;
  params_blocksInfo : option BlocksInfo
}.

(** ** The field and the change event *)

Inductive SvgEl :=
| SvgRect (x y w h : Z) (cls stroke : string) (strokeWidth corner : Z)
| SvgImage (src : string) (x y w h : Z)
| TextElement.

Record Field := {
  instance : nat;  (* identity of the object, and so of its listener closure *)
  name : string;
  asset : option Asset;
  params : ParsedFieldAssetEditorOptions;
  blocksInfo : option BlocksInfo;
  lightMode : bool;
  undoRedoState : option PersistentData;
  pendingEdit : bool;
  isGreyBlock : bool;
  valueText : string;
  sourceBlock_ : option Block;
  fieldGroup_ : option (list SvgEl);
  textElement_ : bool;
  size_ : Z * Z;  (* width, height *)
  blockData : option string
}.

(** [Blockly.Events.BlockChange] with the two revisions. The constructor
    of [BlockChange] fills in nothing when it is given no block, so element
    and name may be absent and the values [undefined]. *)
Record BlocklyTilemapChange := {
  ev_block : option Block;
  ev_element : option string;
  ev_name : option string;
  ev_oldValue : JsValue;
  ev_newValue : JsValue;
  oldRevision : Z;
  newRevision : Z;
  recordUndo : bool
}.

(** ** Effectful host calls *)

Inductive Call :=
| ProjectUpdateAsset (a : Asset)
| ProjectRemoveAsset (a : Asset)
| ProjectDuplicateAsset (a : Asset)
| ProjectPushUndo
| ProjectUndo
| ProjectRedo
| ProjectAddChangeListener (a : Asset) (listener : nat)
| ProjectRemoveChangeListener (t : AssetType) (listener : nat)
| SubclassCreateNewAsset (text : string)
| SubclassOnEditorClose (a : Asset)
| ViewOpen (editorKind : string) (a : Asset) (p : ParsedFieldAssetEditorOptions)
| ViewRestorePersistentData (d : PersistentData)
| ViewOnHide (listener : nat)
| ViewShow
| EventsFire (e : BlocklyTilemapChange)
| SuperRun (forward : bool) (e : BlocklyTilemapChange)
| SuperRender
| SuperUpdateEditable
| DomRemoveClass (cls : string)
| DomSetCursor (cursor : string).

(** The interface of everything outside the file: the tilemap project and
    the utilities of pxtlib, the field editor views, and Blockly. Queries
    read the host state; [perform] is the effect of a call on it. Blocks
    are looked up in one workspace, which [getEventWorkspace_] finds. *)
Class Host (H : Type) := {
  (* pxt.react.getTilemapProject() *)
  lookupAsset : H -> AssetType -> option string -> option Asset;
  revision : H -> Z;
  getProjectTiles : H -> Z -> bool -> list TileAsset;
  isAssetUsed : H -> TileAsset -> list string -> bool;
  duplicateAsset : H -> Asset -> Asset;
  (* Blockly *)
  eventsIsEnabled : H -> bool;
  eventsRecordUndo : H -> bool;
  getBlockById : H -> option string -> option Block;
  superIsNull : BlocklyTilemapChange -> bool;
  superRenderSize : H -> string -> Z * Z;  (* the size Field.render_ computes *)
  (* pxt utilities and builtins *)
  htmlUnescape : string -> string;
  assetEquals : Asset -> Asset -> bool;  (* on two assets; see [editorHidden] *)
  parseInt : option string -> JsNumber;
  (* bitmapToImageURI(pxt.sprite.Bitmap.fromData(d), width, lightMode) on
     bitmap data; see [fromData] for [undefined] *)
  bitmapToImageURI : BitmapData -> Z -> bool -> string;
  tilemapToImageURI : TilemapData -> Z -> bool -> string;
  (* the effect of a call *)
  perform : Call -> H -> H
}.

(** The abstract methods a concrete field class supplies. [getValueText]
    reads the field; what [createNewAsset] does to the project is the
    effect of [SubclassCreateNewAsset]. *)
Record Subclass (H : Type) := {
  getAssetType : AssetType;
  getValueText : Field -> string;
  createNewAsset : Field -> string -> H -> Asset
}.
Arguments getAssetType {H} _.
Arguments getValueText {H} _ _.
Arguments createNewAsset {H} _ _ _ _.

(** ** The monad *)

Record State (T H : Type) := {
  this : T;
  host : H;
  log : list Call
}.
Arguments this {T H} _.
Arguments host {T H} _.
Arguments log {T H} _.
Arguments Build_State {T H} _ _ _.

(** [Throw] is the TypeError of reading a property of [undefined]; the
    state it carries is the state at the point of the throw. *)
Inductive Outcome (T H A : Type) :=
| Ok (a : A) (s : State T H)
| Throw (s : State T H).
Arguments Ok {T H A} _ _.
Arguments Throw {T H A} _.

Definition M (T H A : Type) := State T H -> Outcome T H A.

Definition ret {T H A} (a : A) : M T H A := fun s => Ok a s.

Definition bind {T H A B} (c : M T H A) (k : A -> M T H B) : M T H B :=
  fun s => match c s with
           | Ok a s' => k a s'
           | Throw s' => Throw s'
           end.

Definition throw {T H A} : M T H A := fun s => Throw s.

Declare Scope js_scope.
Delimit Scope js_scope with js.
Notation "x <- c ;; k" := (bind c (fun x => k))
  (at level 100, c at next level, right associativity) : js_scope.
Notation "c ;; k" := (bind c (fun _ => k))
  (at level 100, right associativity) : js_scope.
Local Open Scope js_scope.

Definition getThis {T H} : M T H T := fun s => Ok (this s) s.

Definition setThis {T H} (t : T) : M T H unit :=
  fun s => Ok tt (Build_State t (host s) (log s)).

Definition query {T H A} (q : H -> A) : M T H A := fun s => Ok (q (host s)) s.

(** An effectful host call: the host moves on and the call is logged. *)
Definition call {T H} `{Host H} (c : Call) : M T H unit :=
  fun s => Ok tt (Build_State (this s) (perform c (host s)) (log s ++ [c])%list).

(** The host state after a sequence of calls. *)
Definition replay {H} `{Host H} (cs : list Call) (h : H) : H :=
  fold_left (fun h c => perform c h) cs h.

Definition final {T H A} (o : Outcome T H A) : State T H :=
  match o with Ok _ s | Throw s => s end.

(** ** JavaScript strings *)

(** [String.prototype.indexOf] for a one-character needle; -1 when absent. *)
Fixpoint indexOfFrom (c : ascii) (s : string) (i : Z) : Z :=
  match s with
  | EmptyString => -1
  | String d s' => if Ascii.eqb c d then i else indexOfFrom c s' (i + 1)
  end.

Definition indexOf (c : ascii) (s : string) : Z := indexOfFrom c s 0.

(** [String.prototype.substr(start, length)]. *)
Definition substr (start len : Z) (s : string) : string :=
  let size := Z.of_nat (String.length s) in
  let start' := if (start <? 0)%Z then Z.max (size + start) 0 else start in
  let len' := Z.min (Z.max len 0) (size - start') in
  if (len' <=? 0)%Z then EmptyString else substring (Z.to_nat start') (Z.to_nat len') s.

Definition lowerAscii (c : ascii) : ascii :=
  let n := nat_of_ascii c in
  if (Nat.leb 65 n && Nat.leb n 90)%bool then ascii_of_nat (n + 32) else c.

(** [String.prototype.toLowerCase] on the Latin letters. No character
    outside A-Z lowercases to one of t, r, u, e, so the comparison with
    "true" below is decided by these alone. *)
Fixpoint toLowerCase (s : string) : string :=
  match s with
  | EmptyString => EmptyString
  | String c s' => String (lowerAscii c) (toLowerCase s')
  end.

(** Truthiness of a possibly missing string. *)
Definition truthy (s : option string) : bool :=
  match s with
  | Some EmptyString | None => false
  | Some _ => true
  end.

(** [Array.prototype.indexOf(x) === -1] *)
Definition notIn (x : string) (l : list string) : bool :=
  negb (existsb (String.eqb x) l).

(** ** Updating the field *)

Definition set_asset (v : option Asset) (f : Field) : Field :=
  {| instance := instance f; name := name f; asset := v; params := params f;
     blocksInfo := blocksInfo f; lightMode := lightMode f;
     undoRedoState := undoRedoState f; pendingEdit := pendingEdit f;
     isGreyBlock := isGreyBlock f; valueText := valueText f;
     sourceBlock_ := sourceBlock_ f; fieldGroup_ := fieldGroup_ f;
     textElement_ := textElement_ f; size_ := size_ f;
     blockData := blockData f |}.

Definition set_params (v : ParsedFieldAssetEditorOptions) (f : Field) : Field :=
  {| instance := instance f; name := name f; asset := asset f; params := v;
     blocksInfo := blocksInfo f; lightMode := lightMode f;
     undoRedoState := undoRedoState f; pendingEdit := pendingEdit f;
     isGreyBlock := isGreyBlock f; valueText := valueText f;
     sourceBlock_ := sourceBlock_ f; fieldGroup_ := fieldGroup_ f;
     textElement_ := textElement_ f; size_ := size_ f;
     blockData := blockData f |}.

Definition set_undoRedoState (v : option PersistentData) (f : Field) : Field :=
  {| instance := instance f; name := name f; asset := asset f; params := params f;
     blocksInfo := blocksInfo f; lightMode := lightMode f;
     undoRedoState := v; pendingEdit := pendingEdit f;
     isGreyBlock := isGreyBlock f; valueText := valueText f;
     sourceBlock_ := sourceBlock_ f; fieldGroup_ := fieldGroup_ f;
     textElement_ := textElement_ f; size_ := size_ f;
     blockData := blockData f |}.

Definition set_pendingEdit (v : bool) (f : Field) : Field :=
  {| instance := instance f; name := name f; asset := asset f; params := params f;
     blocksInfo := blocksInfo f; lightMode := lightMode f;
     undoRedoState := undoRedoState f; pendingEdit := v;
     isGreyBlock := isGreyBlock f; valueText := valueText f;
     sourceBlock_ := sourceBlock_ f; fieldGroup_ := fieldGroup_ f;
     textElement_ := textElement_ f; size_ := size_ f;
     blockData := blockData f |}.

Definition set_fieldGroup_ (v : option (list SvgEl)) (f : Field) : Field :=
  {| instance := instance f; name := name f; asset := asset f; params := params f;
     blocksInfo := blocksInfo f; lightMode := lightMode f;
     undoRedoState := undoRedoState f; pendingEdit := pendingEdit f;
     isGreyBlock := isGreyBlock f; valueText := valueText f;
     sourceBlock_ := sourceBlock_ f; fieldGroup_ := v;
     textElement_ := textElement_ f; size_ := size_ f;
     blockData := blockData f |}.

Definition set_textElement_ (v : bool) (f : Field) : Field :=
  {| instance := instance f; name := name f; asset := asset f; params := params f;
     blocksInfo := blocksInfo f; lightMode := lightMode f;
     undoRedoState := undoRedoState f; pendingEdit := pendingEdit f;
     isGreyBlock := isGreyBlock f; valueText := valueText f;
     sourceBlock_ := sourceBlock_ f; fieldGroup_ := fieldGroup_ f;
     textElement_ := v; size_ := size_ f;
     blockData := blockData f |}.

Definition set_size_ (v : Z * Z) (f : Field) : Field :=
  {| instance := instance f; name := name f; asset := asset f; params := params f;
     blocksInfo := blocksInfo f; lightMode := lightMode f;
     undoRedoState := undoRedoState f; pendingEdit := pendingEdit f;
     isGreyBlock := isGreyBlock f; valueText := valueText f;
     sourceBlock_ := sourceBlock_ f; fieldGroup_ := fieldGroup_ f;
     textElement_ := textElement_ f; size_ := v;
     blockData := blockData f |}.

Definition set_blockData (v : option string) (f : Field) : Field :=
  {| instance := instance f; name := name f; asset := asset f; params := params f;
     blocksInfo := blocksInfo f; lightMode := lightMode f;
     undoRedoState := undoRedoState f; pendingEdit := pendingEdit f;
     isGreyBlock := isGreyBlock f; valueText := valueText f;
     sourceBlock_ := sourceBlock_ f; fieldGroup_ := fieldGroup_ f;
     textElement_ := textElement_ f; size_ := size_ f;
     blockData := v |}.

Definition set_meta (m : option AssetMetadata) (a : Asset) : Asset :=
  {| asset_id := asset_id a; asset_meta := m; asset_body := asset_body a |}.

Definition set_body (b : AssetBody) (a : Asset) : Asset :=
  {| asset_id := asset_id a; asset_meta := asset_meta a; asset_body := b |}.

Definition set_blockIDs (l : option (list string)) (m : AssetMetadata) : AssetMetadata :=
  {| displayName := displayName m; blockIDs := l |}.

Definition set_projectReferences (l : option (list string)) (d : TilemapData) : TilemapData :=
  {| tileset := tileset d; projectReferences := l; layers := layers d |}.

Definition set_tiles (l : list TileAsset) (d : TilemapData) : TilemapData :=
  {| tileset := {| tileWidth := tileWidth (tileset d); tiles := l |};
     projectReferences := projectReferences d; layers := layers d |}.

(** ** Geometry of the preview *)

Definition PREVIEW_WIDTH : Z := 32.
Definition X_PADDING : Z := 5.
Definition Y_PADDING : Z := 1.
Definition BG_PADDING : Z := 4.
Definition BG_WIDTH : Z := BG_PADDING * 2 + PREVIEW_WIDTH.
Definition TOTAL_HEIGHT : Z := Y_PADDING * 2 + BG_PADDING * 2 + PREVIEW_WIDTH.
Definition TOTAL_WIDTH : Z := X_PADDING * 2 + BG_PADDING * 2 + PREVIEW_WIDTH.

Definition defined {A} (o : option A) : bool :=
  match o with Some _ => true | None => false end.

(** ** FieldAssetEditor *)

Section FieldAssetEditor.

Context {H : Type} `{Host H} (sub : Subclass H).

Local Abbreviation FM := (M Field H).

Definition modifyThis (g : Field -> Field) : FM unit :=
  f <- getThis ;; setThis (g f).

(** Reading through [this.asset], [this.asset.meta] and
    [this.asset.meta.blockIDs] throws when the object on the way is
    [undefined]. *)
Definition derefAsset : FM Asset :=
  f <- getThis ;;
  match asset f with Some a => ret a | None => throw end.

Definition derefMeta : FM AssetMetadata :=
  a <- derefAsset ;;
  match asset_meta a with Some m => ret m | None => throw end.

Definition derefBlockIDs : FM (list string) :=
  m <- derefMeta ;;
  match blockIDs m with Some l => ret l | None => throw end.

Definition assignMeta (m : AssetMetadata) : FM unit :=
  a <- derefAsset ;;
  modifyThis (set_asset (Some (set_meta (Some m) a))).

Definition assignBlockIDs (l : list string) : FM unit :=
  m <- derefMeta ;;
  assignMeta (set_blockIDs (Some l) m).

(** Modelled from the spec: [getBlockData] and [setBlockData] belong to
    [FieldBase] (field_base.ts), which is not part of the sources at hand.
    The claims speak of "the stored block-data id" and "the field's block
    data": one cell per field, read and written as a whole. *)
Definition getBlockData : FM (option string) :=
  f <- getThis ;; ret (blockData f).

Definition setBlockData (v : option string) : FM unit :=
  modifyThis (set_blockData v).

(** *** parseFieldOptions *)

Definition withDefault (raw : option string) (def : JsNumber) : JsNumber :=
  let res := parseInt raw in
  if isNaN res then def else res.

Definition parseFieldOptions (opts : option FieldAssetEditorOptions)
  : ParsedFieldAssetEditorOptions :=
  let parsed := {| initWidth := Integral 16; initHeight := Integral 16;
                   disableResize := false; params_blocksInfo := None |} in
  match opts with
  | None => parsed
  | Some o =>
    let resize :=
      match o_disableResize o with
      | Some s =>
        if truthy (Some s)
        then (String.eqb (toLowerCase s) "true" || String.eqb s "1")%bool
        else disableResize parsed
      | None => disableResize parsed
      end in
    {| initWidth := withDefault (o_initWidth o) (initWidth parsed);
       initHeight := withDefault (o_initHeight o) (initHeight parsed);
       disableResize := resize;
       params_blocksInfo := params_blocksInfo parsed |}
  end.

(** *** Value and display text *)

Definition getValue (f : Field) : string :=
  if isGreyBlock f then htmlUnescape (valueText f) else getValueText sub f.

Definition getDisplayText_ (f : Field) : string :=
  let text := htmlUnescape (valueText f) in
  substr 0 (indexOf "(" text) text ++ "(...)".

(** *** Rendering *)

(** [Blockly.Field.createTextElement_]: a text node under the group. *)
Definition createTextElement_ : FM unit :=
  modifyThis (fun f =>
    set_textElement_ true
      (set_fieldGroup_ (option_map (fun g => (g ++ [TextElement])%list) (fieldGroup_ f)) f)).

Definition superRender : FM unit :=
  f <- getThis ;;
  sz <- query (fun h => superRenderSize h (getDisplayText_ f)) ;;
  call SuperRender ;;
  modifyThis (set_size_ sz).

Definition render_ : FM unit :=
  f <- getThis ;;
  (if (isGreyBlock f && negb (textElement_ f))%bool
   then createTextElement_ else ret tt) ;;
  superRender ;;
  if negb (isGreyBlock f)
  then modifyThis (set_size_ (TOTAL_WIDTH, TOTAL_HEIGHT))
  else ret tt.

Definition updateEditable : FM unit :=
  f <- getThis ;;
  if (isGreyBlock f && defined (fieldGroup_ f))%bool
  then call (DomRemoveClass "blocklyNonEditableText") ;;
       call (DomRemoveClass "blocklyEditableText") ;;
       call (DomSetCursor EmptyString)
  else call SuperUpdateEditable.

Definition appendChild (el : SvgEl) : FM unit :=
  f <- getThis ;;
  match fieldGroup_ f with
  | Some g => setThis (set_fieldGroup_ (Some (g ++ [el])%list) f)
  | None => throw
  end.

(** [pxt.sprite.Bitmap.fromData] reads [data.width]: given [undefined],
    which is what [frames[0]] is for an animation without frames, it
    throws. *)
Definition fromData (data : option BitmapData) : FM BitmapData :=
  match data with Some d => ret d | None => throw end.

(** The [switch] of [redrawPreview] that computes [dataURI]. *)
Definition previewURI (a : Asset) (light : bool) : FM string :=
  match asset_body a with
  | ImageBody bitmap | TileBody bitmap =>
    bmp <- fromData (Some bitmap) ;;
    ret (bitmapToImageURI bmp PREVIEW_WIDTH light)
  | AnimationBody frames _ =>
    bmp <- fromData (head frames) ;;
    ret (bitmapToImageURI bmp PREVIEW_WIDTH light)
  | TilemapBody data =>
    ret (tilemapToImageURI data PREVIEW_WIDTH light)
  end.

Definition previewBackground : SvgEl :=
  SvgRect X_PADDING Y_PADDING BG_WIDTH BG_WIDTH "blocklySpriteField" "#898989" 1 4.

Definition previewImage (dataURI : string) : SvgEl :=
  SvgImage dataURI
           (X_PADDING + BG_PADDING) (Y_PADDING + BG_PADDING)
           PREVIEW_WIDTH PREVIEW_WIDTH.

Definition redrawPreview : FM unit :=
  f <- getThis ;;
  match fieldGroup_ f with
  | None => ret tt
  | Some _ =>
    modifyThis (set_fieldGroup_ (Some [])) ;;
    if isGreyBlock f then
      createTextElement_ ;;
      render_ ;;
      updateEditable
    else
      appendChild previewBackground ;;
      match asset f with
      | Some a =>
        dataURI <- previewURI a (lightMode f) ;;
        appendChild (previewImage dataURI)
      | None => ret tt
      end
  end.

Definition onInit : FM unit := redrawPreview.

(** *** The asset and the shared project *)

Definition isTemporaryAsset : FM bool :=
  f <- getThis ;;
  match asset f with
  | None => ret false
  | Some _ =>
    m <- derefMeta ;;
    ret (negb (truthy (displayName m)))
  end.

Definition updateAssetMeta : FM unit :=
  f <- getThis ;;
  match asset f with
  | None => ret tt
  | Some a0 =>
    (match asset_meta a0 with
     | None => assignMeta emptyMeta
     | Some _ => ret tt
     end) ;;
    m <- derefMeta ;;
    (match blockIDs m with
     | None => assignBlockIDs []
     | Some _ => ret tt
     end) ;;
    (match sourceBlock_ f with
     | Some sb =>
       ids <- derefBlockIDs ;;
       (if notIn (blockId sb) ids then
          temporary <- (match ids with
                        | [] => ret false
                        | _ :: _ => isTemporaryAsset
                        end) ;;
          used <- (if temporary
                   then query (fun h =>
                          existsb (fun id => defined (getBlockById h (Some id))) ids)
                   else ret false) ;;
          (if used then
             a <- derefAsset ;;
             copy <- query (fun h => duplicateAsset h a) ;;
             call (ProjectDuplicateAsset a) ;;
             modifyThis (set_asset (Some copy)) ;;
             assignBlockIDs []
           else ret tt) ;;
          cur <- derefBlockIDs ;;
          assignBlockIDs (cur ++ [blockId sb])%list
        else ret tt) ;;
       a <- derefAsset ;;
       setBlockData (Some (asset_id a))
     | None => ret tt
     end) ;;
    a <- derefAsset ;;
    call (ProjectUpdateAsset a)
  end.

Definition updateAssetListener : FM unit :=
  f <- getThis ;;
  call (ProjectRemoveChangeListener (getAssetType sub) (instance f)) ;;
  match asset f with
  | Some a => call (ProjectAddChangeListener a (instance f))
  | None => ret tt
  end.

Definition assetChangeListener : FM unit :=
  f <- getThis ;;
  if pendingEdit f then ret tt else
  id <- getBlockData ;;
  (if truthy id then
     found <- query (fun h => lookupAsset h (getAssetType sub) id) ;;
     modifyThis (set_asset found)
   else ret tt) ;;
  redrawPreview.

Definition disposeOfTemporaryAsset : FM unit :=
  temporary <- isTemporaryAsset ;;
  if temporary then
    a <- derefAsset ;;
    call (ProjectRemoveAsset a) ;;
    setBlockData (Some EmptyString) ;;
    modifyThis (set_asset None)
  else ret tt.

Definition onDispose : FM unit :=
  disposeOfTemporaryAsset ;;
  f <- getThis ;;
  call (ProjectRemoveChangeListener (getAssetType sub) (instance f)).

(** The hook is empty in this class; a subclass that overrides it acts on
    the host only. *)
Definition onEditorClose (newValue : Asset) : FM unit :=
  call (SubclassOnEditorClose newValue).

Definition parseValueText (newText : string) : FM unit :=
  let newText := htmlUnescape newText in
  f <- getThis ;;
  match sourceBlock_ f with
  | Some sb =>
    if negb (isInFlyout sb) then
      id <- getBlockData ;;
      existing <- query (fun h => lookupAsset h (getAssetType sub) id) ;;
      (match existing with
       | Some e => modifyThis (set_asset (Some e))
       | None =>
         setBlockData None ;;
         (match asset f with
          | Some _ =>
            m <- derefMeta ;;
            match blockIDs m with
            | Some ids =>
              assignBlockIDs
                (List.filter (fun id => negb (String.eqb id (blockId sb))) ids) ;;
              a <- derefAsset ;;
              call (ProjectUpdateAsset a)
            | None => ret tt
            end
          | None => ret tt
          end) ;;
         f' <- getThis ;;
         created <- query (createNewAsset sub f' newText) ;;
         call (SubclassCreateNewAsset newText) ;;
         modifyThis (set_asset (Some created))
       end) ;;
      updateAssetMeta ;;
      updateAssetListener
    else ret tt
  | None => ret tt
  end.

Definition onValueChanged (newValue : string) : FM string :=
  parseValueText newValue ;;
  redrawPreview ;;
  f <- getThis ;;
  ret (getValueText sub f).

(** *** The editor *)

(** One round of the loop over the project's tiles: the tile joins the
    tilemap's tileset unless a tile of that id is there, and its id joins
    the project references when the project uses it elsewhere. *)
Definition addProjectTile (h : H) (assetId : string) (d : TilemapData)
  (tile : TileAsset) : TilemapData :=
  let d1 :=
    if existsb (fun t => String.eqb (tile_id t) (tile_id tile)) (tiles (tileset d))
    then d
    else set_tiles (tiles (tileset d) ++ [tile])%list d in
  if isAssetUsed h tile [assetId]
  then set_projectReferences
         (Some (match projectReferences d1 with
                | Some l => l ++ [tile_id tile]
                | None => [tile_id tile]
                end)%list) d1
  else d1.

Definition withProjectTiles (h : H) (assetId : string) (d : TilemapData) : TilemapData :=
  let allTiles := getProjectTiles h (tileWidth (tileset d)) true in
  fold_left (addProjectTile h assetId) allTiles (set_projectReferences (Some []) d).

Definition showEditor_ : FM unit :=
  f <- getThis ;;
  if isGreyBlock f then ret tt else
  modifyThis (set_params
    {| initWidth := initWidth (params f); initHeight := initHeight (params f);
       disableResize := disableResize (params f);
       params_blocksInfo := blocksInfo f |}) ;;
  a <- derefAsset ;;
  editorKind <-
    (match asset_body a with
     | TileBody _ | ImageBody _ => ret "image-editor"
     | AnimationBody _ _ => ret "animation-editor"
     | TilemapBody data =>
       data' <- query (fun h => withProjectTiles h (asset_id a) data) ;;
       modifyThis (set_asset (Some (set_body (TilemapBody data') a))) ;;
       ret "tilemap-editor"
     end) ;;
  f1 <- getThis ;;
  a1 <- derefAsset ;;
  call (ViewOpen editorKind a1 (params f1)) ;;
  (match undoRedoState f1 with
   | Some d => call (ViewRestorePersistentData d)
   | None => ret tt
   end) ;;
  call ProjectPushUndo ;;
  call (ViewOnHide (instance f1)) ;;
  call ViewShow.

(** [new BlocklyTilemapChange(block, element, name, oldValue, newValue,
    oldRevision, newRevision)]. [BlockChange] returns at once when there is
    no block and leaves a blank event, to which the parameter properties
    still add the two revisions; [recordUndo], set by the base constructor
    it did not reach, is then [undefined], which is falsy. *)
Definition newBlocklyTilemapChange (h : H) (block : option Block)
  (element name : string) (oldValue newValue : JsValue)
  (oldRevision newRevision : Z) : BlocklyTilemapChange :=
  match block with
  | Some b =>
    {| ev_block := Some b; ev_element := Some element; ev_name := Some name;
       ev_oldValue := oldValue; ev_newValue := newValue;
       oldRevision := oldRevision; newRevision := newRevision;
       recordUndo := eventsRecordUndo h |}
  | None =>
    {| ev_block := None; ev_element := None; ev_name := None;
       ev_oldValue := JsUndefined; ev_newValue := JsUndefined;
       oldRevision := oldRevision; newRevision := newRevision;
       recordUndo := false |}
  end.

(** The callback given to [fv.onHide]; [result] is [fv.getResult()] and
    [persistent] is [fv.getPersistentData()] at the time it runs.
    [pxt.assetEquals(a, b)] compares [a.id] with [b.id] unless [a == b]:
    with [this.asset] undefined and a result at hand it throws. *)
Definition editorHidden (result : option Asset) (persistent : option PersistentData)
  : FM unit :=
  match result with
  | None => ret tt
  | Some r =>
    f <- getThis ;;
    let old := getValue f in
    current <- derefAsset ;;
    if assetEquals current r then ret tt else
    modifyThis (set_pendingEdit true) ;;
    modifyThis (set_asset (Some r)) ;;
    lastRevision <- query revision ;;
    a <- derefAsset ;;
    onEditorClose a ;;
    updateAssetListener ;;
    updateAssetMeta ;;
    redrawPreview ;;
    modifyThis (set_undoRedoState persistent) ;;
    f1 <- getThis ;;
    enabled <- query eventsIsEnabled ;;
    (match sourceBlock_ f1 with
     | Some sb =>
       if enabled then
         rev <- query revision ;;
         ev <- query (fun h =>
           newBlocklyTilemapChange h (Some sb) "field" (name f1)
             (JsString old) (JsString (getValue f1)) lastRevision rev) ;;
         call (EventsFire ev)
       else ret tt
     | None => ret tt
     end) ;;
    modifyThis (set_pendingEdit false)
  end.

End FieldAssetEditor.

(** ** BlocklyTilemapChange *)

Section BlocklyTilemapChange.

Context {H : Type} `{Host H}.

Local Abbreviation EM := (M BlocklyTilemapChange H).

Definition set_recordUndo (v : bool) (e : BlocklyTilemapChange) : BlocklyTilemapChange :=
  {| ev_block := ev_block e; ev_element := ev_element e; ev_name := ev_name e;
     ev_oldValue := ev_oldValue e; ev_newValue := ev_newValue e;
     oldRevision := oldRevision e; newRevision := newRevision e;
     recordUndo := v |}.

Definition isNull (e : BlocklyTilemapChange) : bool :=
  ((oldRevision e =? newRevision e)%Z && superIsNull e)%bool.

(** The event [run] builds to force a recompile. [this.blockId] is the id
    of the block the event was made for; the workspace may no longer have
    a block of that id. *)
Definition revisionEvent (h : H) (e : BlocklyTilemapChange) : BlocklyTilemapChange :=
  let ev := newBlocklyTilemapChange h
              (getBlockById h (option_map blockId (ev_block e)))
              "tilemap-revision" "revision" JsNull (JsNum (revision h)) 0 0 in
  set_recordUndo false ev.

(** Blockly's own methods are taken as returning: [getEventWorkspace_]
    finds the workspace of the event, as [super.run], which asks for it
    first, has just done. *)
Definition run (forward : bool) : EM unit :=
  e <- getThis ;;
  (if forward then
     call ProjectRedo ;;
     call (SuperRun forward e)
   else
     call ProjectUndo ;;
     call (SuperRun forward e)) ;;
  ev <- query (fun h => revisionEvent h e) ;;
  call (EventsFire ev).

End BlocklyTilemapChange.

(** * What the methods amount to *)

(** Closed forms of the states and call sequences the methods produce; the
    lemmas below relate them to the code. *)

Section Summaries.

Context {H : Type} `{Host H} (sub : Subclass H).

(** ** Tracked effects *)

(** A computation is tracked when the host it leaves behind is the host it
    found, moved on by exactly the calls it appended to the log. *)
Definition Tracked {T A} (c : M T H A) : Prop :=
  forall s, exists cs,
    log (final (c s)) = (log s ++ cs)%list /\
    host (final (c s)) = replay cs (host s).

(** ** updateAssetMeta *)

Definition metaOf (a : Asset) : AssetMetadata :=
  match asset_meta a with Some m => m | None => emptyMeta end.

Definition idsOf (a : Asset) : list string :=
  match blockIDs (metaOf a) with Some l => l | None => [] end.

Definition withIDs (l : list string) (a : Asset) : Asset :=
  set_meta (Some (set_blockIDs (Some l) (metaOf a))) a.

Definition isTemporary (a : Asset) : bool :=
  negb (truthy (displayName (metaOf a))).

Definition usedByLiveBlock (h : H) (a : Asset) : bool :=
  existsb (fun id => defined (getBlockById h (Some id))) (idsOf a).

(** The test under which [updateAssetMeta] asks the project for a copy. *)
Definition mustDuplicate (h : H) (sb : Block) (a : Asset) : bool :=
  (notIn (blockId sb) (idsOf a) && isTemporary a && usedByLiveBlock h a)%bool.

(** The asset the field holds after [updateAssetMeta]. *)
Definition settledAsset (h : H) (sb : option Block) (a : Asset) : Asset :=
  match sb with
  | None => withIDs (idsOf a) a
  | Some b =>
    if mustDuplicate h b a then withIDs [blockId b] (duplicateAsset h a)
    else if notIn (blockId b) (idsOf a) then withIDs (idsOf a ++ [blockId b])%list a
    else withIDs (idsOf a) a
  end.

(** The calls it makes on the project. *)
Definition settlingCalls (h : H) (sb : option Block) (a : Asset) : list Call :=
  match sb with
  | Some b =>
    if mustDuplicate h b a
    then [ProjectDuplicateAsset a; ProjectUpdateAsset (settledAsset h sb a)]
    else [ProjectUpdateAsset (settledAsset h sb a)]
  | None => [ProjectUpdateAsset (settledAsset h sb a)]
  end.

Definition settledField (h : H) (a : Asset) (f : Field) : Field :=
  let a' := settledAsset h (sourceBlock_ f) a in
  set_blockData
    (match sourceBlock_ f with
     | Some _ => Some (asset_id a')
     | None => blockData f
     end)
    (set_asset (Some a') f).

(** ** redrawPreview *)

(** An animation without frames is the one asset that has no preview. *)
Definition hasPreview (a : Asset) : bool :=
  match asset_body a with
  | AnimationBody [] _ => false
  | _ => true
  end.

(** The data URI [redrawPreview] computes for an asset that has one. *)
Definition dataURIOf (a : Asset) (light : bool) : option string :=
  match asset_body a with
  | ImageBody bitmap | TileBody bitmap =>
    Some (bitmapToImageURI bitmap PREVIEW_WIDTH light)
  | AnimationBody frames _ =>
    option_map (fun first => bitmapToImageURI first PREVIEW_WIDTH light) (head frames)
  | TilemapBody data =>
    Some (tilemapToImageURI data PREVIEW_WIDTH light)
  end.

(** What the group holds when a redraw of a field that is not grey ends,
    be it by returning or by throwing. *)
Definition drawnPreview (f : Field) : list SvgEl :=
  previewBackground ::
  match asset f with
  | Some a =>
    match dataURIOf a (lightMode f) with
    | Some dataURI => [previewImage dataURI]
    | None => []
    end
  | None => []
  end.

(** The fields on which [redrawPreview] returns: all but a rendered field
    that is not grey and holds an animation without frames. *)
Definition canRedraw (f : Field) : bool :=
  match fieldGroup_ f with
  | None => true
  | Some _ =>
    (isGreyBlock f || match asset f with
                      | Some a => hasPreview a
                      | None => true
                      end)%bool
  end.

(** Two fields that differ at most in what Blockly renders of them. *)
Definition SameButView (f f' : Field) : Prop :=
  instance f' = instance f /\ name f' = name f /\ asset f' = asset f /\
  params f' = params f /\ blocksInfo f' = blocksInfo f /\
  lightMode f' = lightMode f /\ undoRedoState f' = undoRedoState f /\
  pendingEdit f' = pendingEdit f /\ isGreyBlock f' = isGreyBlock f /\
  valueText f' = valueText f /\ sourceBlock_ f' = sourceBlock_ f /\
  blockData f' = blockData f.

(** ** showEditor_ *)

(** The asset the editor is opened on: a tilemap first takes in the
    project's tiles. *)
Definition openedAsset (h : H) (a : Asset) : Asset :=
  match asset_body a with
  | TilemapBody data =>
    set_body (TilemapBody (withProjectTiles h (asset_id a) data)) a
  | _ => a
  end.

Definition restoreCalls (f : Field) : list Call :=
  match undoRedoState f with
  | Some d => [ViewRestorePersistentData d]
  | None => []
  end.

(** The editor kind [showEditor_] passes to [getFieldEditorView]. *)
Definition editorKindOf (a : Asset) : string :=
  match asset_body a with
  | TileBody _ | ImageBody _ => "image-editor"
  | AnimationBody _ _ => "animation-editor"
  | TilemapBody _ => "tilemap-editor"
  end.

(** ** The callback of the editor *)

(** The calls made between taking the result and settling its meta. *)
Definition closingCalls (f : Field) (r : Asset) : list Call :=
  [SubclassOnEditorClose r;
   ProjectRemoveChangeListener (getAssetType sub) (instance f);
   ProjectAddChangeListener r (instance f)].

(** The state in which [updateAssetMeta] runs. *)
Definition adopting (s : State Field H) (r : Asset) : State Field H :=
  {| this := set_asset (Some r) (set_pendingEdit true (this s));
     host := replay (closingCalls (this s) r) (host s);
     log := (log s ++ closingCalls (this s) r)%list |}.

(** The event fired for an edit. *)
Definition changeEvent (old : string) (lastRevision : Z) (f : Field) (h : H) (sb : Block)
  : BlocklyTilemapChange :=
  {| ev_block := Some sb; ev_element := Some "field"; ev_name := Some (name f);
     ev_oldValue := JsString old; ev_newValue := JsString (getValue sub f);
     oldRevision := lastRevision; newRevision := revision h;
     recordUndo := eventsRecordUndo h |}.

Definition firedOnClose (old : string) (lastRevision : Z) (f : Field) (h : H) : list Call :=
  match sourceBlock_ f with
  | Some sb =>
    if eventsIsEnabled h then [EventsFire (changeEvent old lastRevision f h sb)] else []
  | None => []
  end.

(** ** Entry points *)

(** The callbacks through which the host enters the field. *)
Inductive EntryPoint :=
| OnInit
| OnValueChanged (newValue : string)
| ShowEditor
| EditorHidden (result : option Asset) (persistent : option PersistentData)
| Render
| UpdateEditable
| OnDispose
| AssetChanged.

Definition enter (e : EntryPoint) : M Field H unit :=
  match e with
  | OnInit => onInit
  | OnValueChanged v => bind (onValueChanged sub v) (fun _ => ret tt)
  | ShowEditor => showEditor_
  | EditorHidden result persistent => editorHidden sub result persistent
  | Render => render_
  | UpdateEditable => updateEditable
  | OnDispose => onDispose sub
  | AssetChanged => assetChangeListener sub
  end.

End Summaries.

(** * A small host to run the code on *)

(** The theorems above hold for every host. This one is a project that
    keeps its assets by id and counts revisions, a workspace that is a list
    of blocks, and renderers that return fixed strings. *)
Module TestHost.

#[global] Instance BitmapData_eq_dec : EqDecision BitmapData.
Proof. solve_decision. Defined.
#[global] Instance AssetMetadata_eq_dec : EqDecision AssetMetadata.
Proof. solve_decision. Defined.
#[global] Instance TileAsset_eq_dec : EqDecision TileAsset.
Proof. solve_decision. Defined.
#[global] Instance TileSet_eq_dec : EqDecision TileSet.
Proof. solve_decision. Defined.
#[global] Instance TilemapData_eq_dec : EqDecision TilemapData.
Proof. solve_decision. Defined.
#[global] Instance AssetBody_eq_dec : EqDecision AssetBody.
Proof. solve_decision. Defined.
#[global] Instance Asset_eq_dec : EqDecision Asset.
Proof. solve_decision. Defined.
#[global] Instance JsValue_eq_dec : EqDecision JsValue.
Proof. solve_decision. Defined.

Record T := {
  store : gmap string Asset;
  rev : Z;
  enabled : bool;
  workspace : list Block
}.

Definition with_store (m : gmap string Asset) (h : T) : T :=
  {| store := m; rev := rev h + 1; enabled := enabled h; workspace := workspace h |}.

Definition with_rev (r : Z) (h : T) : T :=
  {| store := store h; rev := r; enabled := enabled h; workspace := workspace h |}.

Definition copyOf (a : Asset) : Asset :=
  {| asset_id := asset_id a ++ "-copy"; asset_meta := asset_meta a;
     asset_body := asset_body a |}.

Definition step (c : Call) (h : T) : T :=
  match c with
  | ProjectUpdateAsset a => with_store (<[asset_id a := a]> (store h)) h
  | ProjectRemoveAsset a => with_store (delete (asset_id a) (store h)) h
  | ProjectDuplicateAsset a =>
    with_store (<[asset_id (copyOf a) := copyOf a]> (store h)) h
  | ProjectUndo => with_rev (rev h - 1) h
  | ProjectRedo => with_rev (rev h + 1) h
  | _ => h
  end.

Definition lookup (h : T) (t : AssetType) (id : option string) : option Asset :=
  match id with
  | Some i =>
    match store h !! i with
    | Some a => if decide (asset_type a = t) then Some a else None
    | None => None
    end
  | None => None
  end.

Definition blockById (h : T) (id : option string) : option Block :=
  match id with
  | Some i => List.find (fun b => String.eqb (blockId b) i) (workspace h)
  | None => None
  end.

(** Leading decimal digits only. *)
Fixpoint digits (s : string) (acc : option Z) : option Z :=
  match s with
  | EmptyString => acc
  | String c s' =>
    let n := Z.of_nat (nat_of_ascii c) in
    if ((48 <=? n) && (n <=? 57))%Z
    then digits s' (Some (10 * match acc with Some z => z | None => 0 end + (n - 48))%Z)
    else acc
  end.

Definition decimal (raw : option string) : JsNumber :=
  match raw with
  | Some s => match digits s None with Some z => Integral z | None => NaN end
  | None => NaN
  end.

#[global] Instance host_ops : Host T := {|
  lookupAsset := lookup;
  revision := rev;
  getProjectTiles := fun _ _ _ => [];
  isAssetUsed := fun _ _ _ => false;
  duplicateAsset := fun _ a => copyOf a;
  eventsIsEnabled := enabled;
  eventsRecordUndo := fun _ => true;
  getBlockById := blockById;
  superIsNull := fun e => bool_decide (ev_oldValue e = ev_newValue e);
  superRenderSize := fun _ _ => (0, 0)%Z;
  htmlUnescape := fun s => s;
  assetEquals := fun a b => bool_decide (a = b);
  parseInt := decimal;
  bitmapToImageURI := fun _ _ _ => "data:bitmap";
  tilemapToImageURI := fun _ _ _ => "data:tilemap";
  perform := step
|}.

(** A field class for images whose value text is the asset's id. *)
Definition imageField : Subclass T := {|
  getAssetType := Image;
  getValueText := fun f => match asset f with Some a => asset_id a | None => EmptyString end;
  createNewAsset := fun _ _ _ =>
    {| asset_id := "fresh"; asset_meta := None;
       asset_body := ImageBody {| bm_width := 16; bm_height := 16; bm_pixels := [] |} |}
|}.

Definition blank : BitmapData := {| bm_width := 1; bm_height := 1; bm_pixels := [0%Z] |}.
Definition dot : BitmapData := {| bm_width := 1; bm_height := 1; bm_pixels := [1%Z] |}.

Definition image (id : string) (dn : option string) (ids : list string)
  (b : BitmapData) : Asset :=
  {| asset_id := id;
     asset_meta := Some {| displayName := dn; blockIDs := Some ids |};
     asset_body := ImageBody b |}.

Definition block (id : string) : Block := {| blockId := id; isInFlyout := false |}.

Definition field (a : option Asset) (sb : option Block) (data : option string) : Field :=
  {| instance := 0; name := "img"; asset := a;
     params := {| initWidth := Integral 16; initHeight := Integral 16;
                  disableResize := false; params_blocksInfo := None |};
     blocksInfo := None; lightMode := false; undoRedoState := None;
     pendingEdit := false; isGreyBlock := false; valueText := EmptyString;
     sourceBlock_ := sb; fieldGroup_ := Some []; textElement_ := false;
     size_ := (0, 0)%Z; blockData := data |}.

Definition project (assets : list Asset) (on : bool) (blocks : list Block) : T :=
  {| store := list_to_map (List.map (fun a => (asset_id a, a)) assets);
     rev := 0; enabled := on; workspace := blocks |}.

Definition start (f : Field) (h : T) : State Field T :=
  {| this := f; host := h; log := [] |}.

(** An image with a display name on block b1, and a temporary one that
    lists block b2. *)
Definition named : Asset := image "a" (Some "A") ["b1"] blank.
Definition temporary : Asset := image "t" None ["b2"] dot.

Definition twoBlocks (on : bool) : T :=
  project [named; temporary] on [block "b1"; block "b2"].

Definition onBlock1 (on : bool) : State Field T :=
  start (field (Some named) (Some (block "b1")) (Some "a")) (twoBlocks on).

(** More fields for the project of two blocks: one that meets the
    temporary asset of block b2, one without a block, one in the flyout,
    one whose block data names an asset the project does not have, and one
    whose asset has no meta. *)
Definition meetsTemporary : State Field T :=
  start (field (Some temporary) (Some (block "b1")) None) (twoBlocks true).

Definition detached : State Field T :=
  start (field (Some named) None None) (twoBlocks true).

Definition inFlyout : State Field T :=
  start (field None (Some {| blockId := "f1"; isInFlyout := true |}) None)
        (twoBlocks true).


Definition unset : State Field T :=
  start (field None (Some (block "b1")) None) (twoBlocks true).

Definition bare : Asset :=
  {| asset_id := "bare"; asset_meta := None; asset_body := ImageBody blank |}.

(** An animation of the given frames, and a field class for animations. *)
Definition flipbook (frames : list BitmapData) : Asset :=
  {| asset_id := "walk";
     asset_meta := Some {| displayName := Some "Walk"; blockIDs := Some ["b1"] |};
     asset_body := AnimationBody frames 100 |}.

Definition animationField : Subclass T := {|
  getAssetType := Animation;
  getValueText := fun f => match asset f with Some a => asset_id a | None => EmptyString end;
  createNewAsset := fun _ _ _ => flipbook [blank]
|}.

(** A project whose animation has lost its frames, and the field on block
    b1 that shows the animation as it was. *)
Definition hollow : State Field T :=
  start (field (Some (flipbook [dot])) (Some (block "b1")) (Some "walk"))
        (project [flipbook []] true [block "b1"]).

End TestHost.

(** * A host with project tiles, whose copies come without a meta *)

(** The project holds tiles and knows which of them are used; it keeps no
    assets, and what it returns as a duplicate has lost its meta. *)
Module BareHost.

Record T := {
  projectTiles : list TileAsset;
  usedTiles : list string;
  blocks : list Block
}.

Definition bareCopy (a : Asset) : Asset :=
  {| asset_id := asset_id a ++ "-copy"; asset_meta := None;
     asset_body := asset_body a |}.

#[global] Instance host_ops : Host T := {|
  lookupAsset := fun _ _ _ => None;
  revision := fun _ => 0%Z;
  getProjectTiles := fun h _ _ => projectTiles h;
  isAssetUsed := fun h t _ => existsb (String.eqb (tile_id t)) (usedTiles h);
  duplicateAsset := fun _ a => bareCopy a;
  eventsIsEnabled := fun _ => true;
  eventsRecordUndo := fun _ => true;
  getBlockById := fun h id =>
    match id with
    | Some i => List.find (fun b => String.eqb (blockId b) i) (blocks h)
    | None => None
    end;
  superIsNull := fun _ => false;
  superRenderSize := fun _ _ => (0, 0)%Z;
  htmlUnescape := fun s => s;
  assetEquals := fun _ _ => false;
  parseInt := fun _ => NaN;
  bitmapToImageURI := fun _ _ _ => "data:bitmap";
  tilemapToImageURI := fun _ _ _ => "data:tilemap";
  perform := fun _ h => h
|}.

Definition tilemapField : Subclass T := {|
  getAssetType := Tilemap;
  getValueText := fun f =>
    match asset f with Some a => asset_id a | None => EmptyString end;
  createNewAsset := fun _ _ _ =>
    {| asset_id := "fresh"; asset_meta := None;
       asset_body := ImageBody {| bm_width := 16; bm_height := 16; bm_pixels := [] |} |}
|}.

Definition tile (id : string) : TileAsset :=
  {| tile_id := id; tile_meta := None;
     tile_bitmap := {| bm_width := 16; bm_height := 16; bm_pixels := [] |} |}.

Definition level (ts : list TileAsset) (refs : option (list string)) : Asset :=
  {| asset_id := "level"; asset_meta := None;
     asset_body :=
       TilemapBody
         {| tileset := {| tileWidth := 16; tiles := ts |};
            projectReferences := refs;
            layers := {| bm_width := 2; bm_height := 2; bm_pixels := [0; 1; 1; 0]%Z |} |} |}.

(** A level with the tile "grass", opened in a project with the tiles
    "grass", "rock" and "rock" again, of which "rock" is used. *)
Definition levelField (refs : option (list string)) : State Field T :=
  {| this := {| instance := 7; name := "map";
                asset := Some (level [tile "grass"] refs);
                params := {| initWidth := Integral 16; initHeight := Integral 16;
                             disableResize := false; params_blocksInfo := None |};
                blocksInfo := Some (BlocksInfoRef 1); lightMode := false;
                undoRedoState := None; pendingEdit := false; isGreyBlock := false;
                valueText := EmptyString;
                sourceBlock_ := Some {| blockId := "b1"; isInFlyout := false |};
                fieldGroup_ := None; textElement_ := false; size_ := (0, 0)%Z;
                blockData := Some "level" |};
     host := {| projectTiles := [tile "grass"; tile "rock"; tile "rock"];
                usedTiles := ["rock"];
                blocks := [{| blockId := "b1"; isInFlyout := false |};
                           {| blockId := "b2"; isInFlyout := false |}] |};
     log := [] |}.

Definition levelData (refs : option (list string)) : TilemapData :=
  {| tileset := {| tileWidth := 16; tiles := [tile "grass"] |};
     projectReferences := refs;
     layers := {| bm_width := 2; bm_height := 2; bm_pixels := [0; 1; 1; 0]%Z |} |}.

Definition emptyField : State Field T :=
  {| this := set_asset None (this (levelField None));
     host := host (levelField None); log := [] |}.

(** A temporary image that block b2 uses, met by the field on block b1. *)
Definition sharedImage : Asset :=
  {| asset_id := "t";
     asset_meta := Some {| displayName := None; blockIDs := Some ["b2"] |};
     asset_body := ImageBody {| bm_width := 1; bm_height := 1; bm_pixels := [1%Z] |} |}.

Definition meetsShared : State Field T :=
  {| this := set_asset (Some sharedImage) (this (levelField None));
     host := host (levelField None); log := [] |}.

End BareHost.

(** * Properties *)

(** ** Every effect on the host is a logged call *)

Section Tracked.

Context {H : Type} `{Host H}.

Lemma replay_app (cs ds : list Call) (h : H) :
  replay (cs ++ ds) h = replay ds (replay cs h).
Proof. unfold replay. apply fold_left_app. Qed.

Lemma tracked_ret {T A} (a : A) : Tracked (T := T) (ret a).
Proof. intros s. exists []. cbn. rewrite app_nil_r. auto. Qed.

Lemma tracked_throw {T A} : Tracked (T := T) (A := A) throw.
Proof. intros s. exists []. cbn. rewrite app_nil_r. auto. Qed.

Lemma tracked_getThis {T} : Tracked (T := T) getThis.
Proof. intros s. exists []. cbn. rewrite app_nil_r. auto. Qed.

Lemma tracked_setThis {T} (t : T) : Tracked (setThis t).
Proof. intros s. exists []. cbn. rewrite app_nil_r. auto. Qed.

Lemma tracked_query {T A} (q : H -> A) : Tracked (T := T) (query q).
Proof. intros s. exists []. cbn. rewrite app_nil_r. auto. Qed.

Lemma tracked_call {T} (c : Call) : Tracked (T := T) (call c).
Proof. intros s. exists [c]. cbn. auto. Qed.

Lemma tracked_bind {T A B} (c : M T H A) (k : A -> M T H B) :
  Tracked c -> (forall a, Tracked (k a)) -> Tracked (bind c k).
Proof.
  intros Hc Hk s. unfold bind.
  destruct (Hc s) as (cs & Hl & Hh).
  destruct (c s) as [a s1 | s1]; cbn in Hl, Hh.
  - destruct (Hk a s1) as (ds & Hl' & Hh').
    exists (cs ++ ds)%list. rewrite Hl', Hh', Hl, Hh, replay_app, app_assoc. auto.
  - exists cs. cbn. auto.
Qed.

End Tracked.

Create HintDb tracked.

#[global] Hint Resolve tracked_ret tracked_throw tracked_getThis tracked_setThis
  tracked_query tracked_call : tracked.

(** Walks through a method body: binds, branches and the primitives. *)
Ltac tracked :=
  repeat first
    [ progress intros
    | apply tracked_bind
    | solve [auto with tracked]
    | match goal with
      | |- Tracked (match ?x with _ => _ end) => destruct x
      | |- Tracked (if ?x then _ else _) => destruct x
      end ].

Section TrackedMethods.

Context {H : Type} `{Host H} (sub : Subclass H).

Lemma tracked_modifyThis (g : Field -> Field) : Tracked (modifyThis g).
Proof. unfold modifyThis. tracked. Qed.

Lemma tracked_derefAsset : Tracked derefAsset.
Proof. unfold derefAsset. tracked. Qed.

#[local] Hint Resolve tracked_modifyThis tracked_derefAsset : tracked.

Lemma tracked_derefMeta : Tracked derefMeta.
Proof. unfold derefMeta. tracked. Qed.

#[local] Hint Resolve tracked_derefMeta : tracked.

Lemma tracked_derefBlockIDs : Tracked derefBlockIDs.
Proof. unfold derefBlockIDs. tracked. Qed.

Lemma tracked_assignMeta m : Tracked (assignMeta m).
Proof. unfold assignMeta. tracked. Qed.

#[local] Hint Resolve tracked_derefBlockIDs tracked_assignMeta : tracked.

Lemma tracked_assignBlockIDs l : Tracked (assignBlockIDs l).
Proof. unfold assignBlockIDs. tracked. Qed.

Lemma tracked_getBlockData : Tracked getBlockData.
Proof. unfold getBlockData. tracked. Qed.

Lemma tracked_setBlockData v : Tracked (setBlockData v).
Proof. unfold setBlockData. tracked. Qed.

#[local] Hint Resolve tracked_assignBlockIDs tracked_getBlockData tracked_setBlockData : tracked.

Lemma tracked_createTextElement_ : Tracked createTextElement_.
Proof. unfold createTextElement_. tracked. Qed.

Lemma tracked_superRender : Tracked superRender.
Proof. unfold superRender. tracked. Qed.

#[local] Hint Resolve tracked_createTextElement_ tracked_superRender : tracked.

Lemma tracked_render_ : Tracked render_.
Proof. unfold render_. tracked. Qed.

Lemma tracked_updateEditable : Tracked updateEditable.
Proof. unfold updateEditable. tracked. Qed.

Lemma tracked_appendChild el : Tracked (appendChild el).
Proof. unfold appendChild. tracked. Qed.

Lemma tracked_fromData data : Tracked (fromData data).
Proof. unfold fromData. tracked. Qed.

#[local] Hint Resolve tracked_render_ tracked_updateEditable tracked_appendChild
  tracked_fromData : tracked.

Lemma tracked_previewURI a light : Tracked (previewURI a light).
Proof. unfold previewURI. tracked. Qed.

#[local] Hint Resolve tracked_previewURI : tracked.

Lemma tracked_redrawPreview : Tracked redrawPreview.
Proof. unfold redrawPreview. tracked. Qed.

Lemma tracked_isTemporaryAsset : Tracked isTemporaryAsset.
Proof. unfold isTemporaryAsset. tracked. Qed.

#[local] Hint Resolve tracked_redrawPreview tracked_isTemporaryAsset : tracked.

Lemma tracked_updateAssetMeta : Tracked updateAssetMeta.
Proof. unfold updateAssetMeta. tracked. Qed.

Lemma tracked_updateAssetListener : Tracked (updateAssetListener sub).
Proof. unfold updateAssetListener. tracked. Qed.

#[local] Hint Resolve tracked_updateAssetMeta tracked_updateAssetListener : tracked.

Lemma tracked_assetChangeListener : Tracked (assetChangeListener sub).
Proof. unfold assetChangeListener. tracked. Qed.

Lemma tracked_disposeOfTemporaryAsset : Tracked disposeOfTemporaryAsset.
Proof. unfold disposeOfTemporaryAsset. tracked. Qed.

#[local] Hint Resolve tracked_disposeOfTemporaryAsset : tracked.

Lemma tracked_onDispose : Tracked (onDispose sub).
Proof. unfold onDispose. tracked. Qed.

Lemma tracked_parseValueText text : Tracked (parseValueText sub text).
Proof. unfold parseValueText. tracked. Qed.

#[local] Hint Resolve tracked_parseValueText : tracked.

Lemma tracked_onValueChanged text : Tracked (onValueChanged sub text).
Proof. unfold onValueChanged. tracked. Qed.

Lemma tracked_showEditor_ : Tracked showEditor_.
Proof. unfold showEditor_. tracked. Qed.

Lemma tracked_editorHidden result d : Tracked (editorHidden sub result d).
Proof. unfold editorHidden, onEditorClose. tracked. Qed.

End TrackedMethods.

(** ** updateAssetMeta, case by case *)

Section UpdateAssetMetaRuns.

Context {H : Type} `{Host H}.

Ltac unfold_meta :=
  unfold updateAssetMeta, isTemporaryAsset, assignBlockIDs, assignMeta,
    setBlockData, getBlockData, derefBlockIDs, derefMeta, derefAsset,
    modifyThis, call, query, bind, ret, throw, getThis, setThis.

Lemma updateAssetMeta_run (s : State Field H) (a : Asset) :
  asset (this s) = Some a ->
  (forall sb, sourceBlock_ (this s) = Some sb ->
              mustDuplicate (host s) sb a = true ->
              asset_meta (duplicateAsset (host s) a) <> None) ->
  updateAssetMeta s =
  Ok tt {| this := settledField (host s) a (this s);
           host := replay (settlingCalls (host s) (sourceBlock_ (this s)) a) (host s);
           log := (log s ++ settlingCalls (host s) (sourceBlock_ (this s)) a)%list |}.
Proof.
  destruct s as [f h l]. destruct f as [? ? ? ? ? ? ? ? ? ? sbo ? ? ? ?].
  cbn. intros -> Hdup.
  unfold settledField, settlingCalls, settledAsset. cbn.
  destruct sbo as [sb|]; cbn.
  - specialize (Hdup sb eq_refl).
    unfold mustDuplicate, isTemporary, usedByLiveBlock, withIDs, idsOf, metaOf in *.
    destruct a as [i [[dn [ids|]]|] b]; cbn in *; unfold_meta; cbn.
    + destruct (notIn (blockId sb) ids) eqn:Hn; cbn; [|reflexivity].
      remember (existsb (fun id => defined (getBlockById h (Some id))) ids) as used eqn:Hu.
      destruct ids as [|x ids].
      { cbn in Hu. subst used. rewrite andb_false_r. reflexivity. }
      cbn -[existsb].
      destruct (negb (truthy dn)); cbn -[existsb]; [|reflexivity].
      rewrite <- Hu.
      destruct used; cbn in *; [|reflexivity].
      destruct (asset_meta (duplicateAsset h _)) as [m|] eqn:Hm;
        [|exfalso; apply Hdup; reflexivity]; cbn.
      unfold set_meta, set_blockIDs, set_asset, set_blockData; cbn. rewrite <- app_assoc. reflexivity.
    + rewrite ?andb_false_r. reflexivity.
    + rewrite ?andb_false_r. reflexivity.
  - unfold withIDs, idsOf, metaOf.
    destruct a as [i [[dn [ids|]]|] b]; cbn; unfold_meta; cbn; reflexivity.
Qed.

(** Without an asset the method returns at once. *)
Lemma updateAssetMeta_no_asset (s : State Field H) :
  asset (this s) = None -> updateAssetMeta s = Ok tt s.
Proof.
  destruct s as [f h l]. cbn. intros Hn.
  unfold updateAssetMeta, bind, getThis. cbn. rewrite Hn. reflexivity.
Qed.

End UpdateAssetMetaRuns.

(** ** redrawPreview *)

Section RedrawPreview.

Context {H : Type} `{Host H}.

Lemma SameButView_refl f : SameButView f f.
Proof. repeat split. Qed.

Ltac unfold_draw :=
  unfold redrawPreview, previewURI, fromData, render_, superRender, updateEditable,
    createTextElement_, appendChild, modifyThis, call, query, bind, ret, throw,
    getThis, setThis.

Lemma redrawPreview_detached (s : State Field H) :
  fieldGroup_ (this s) = None -> redrawPreview s = Ok tt s.
Proof.
  destruct s as [f h l]. cbn. intros Hg.
  unfold_draw. cbn. rewrite Hg. reflexivity.
Qed.

(** The only asset for which no data URI is computed is the animation
    without frames. *)
Lemma dataURIOf_hasPreview (a : Asset) (light : bool) :
  hasPreview a = true <-> exists dataURI, dataURIOf (H := H) a light = Some dataURI.
Proof.
  unfold hasPreview, dataURIOf.
  destruct (asset_body a) as [b|b|[|first frames] iv|d]; cbn; split;
    try (intros _; eexists; reflexivity); try reflexivity.
  - discriminate.
  - intros (u & Hu). discriminate.
Qed.

(** On a rendered field that is not grey the redraw ends with the group
    drawn anew; it returns when the asset has a preview and throws when it
    has none. *)
Lemma redrawPreview_plain (s : State Field H) (g : list SvgEl) :
  isGreyBlock (this s) = false ->
  fieldGroup_ (this s) = Some g ->
  redrawPreview s =
  (if canRedraw (this s) then Ok tt else Throw)
    {| this := set_fieldGroup_ (Some (drawnPreview (this s))) (this s);
       host := host s; log := log s |}.
Proof.
  destruct s as [f h l]. destruct f as [? ? a ? ? ? ? ? ? ? ? ? ? ? ?].
  cbn. intros -> ->.
  unfold_draw. unfold drawnPreview, canRedraw, dataURIOf, hasPreview. cbn.
  destruct a as [a|]; [|reflexivity].
  destruct (asset_body a) as [b|b|[|first frames] iv|d]; reflexivity.
Qed.

Lemma canRedraw_false (f : Field) :
  canRedraw f = false <->
  isGreyBlock f = false /\ fieldGroup_ f <> None /\
  exists a iv, asset f = Some a /\ asset_body a = AnimationBody [] iv.
Proof.
  unfold canRedraw, hasPreview. split.
  - destruct (fieldGroup_ f) as [g|]; [|discriminate].
    destruct (isGreyBlock f); [discriminate|]. cbn.
    destruct (asset f) as [a|]; [|discriminate].
    destruct (asset_body a) as [b|b|[|first frames] iv|d] eqn:Hb; try discriminate.
    intros _. split; [reflexivity|]. split; [discriminate|].
    exists a, iv. split; [reflexivity | exact Hb].
  - intros (Hgrey & Hg & a & iv & Ha & Hb).
    destruct (fieldGroup_ f) as [g|]; [|congruence].
    rewrite Hgrey, Ha, Hb. reflexivity.
Qed.

(** However the redraw ends, it has touched nothing but the view. *)
Lemma redrawPreview_frame (s : State Field H) :
  SameButView (this s) (this (final (redrawPreview s))).
Proof.
  destruct s as [f h l].
  destruct (fieldGroup_ f) as [g|] eqn:Hg.
  - destruct (isGreyBlock f) eqn:Hgrey.
    + destruct f. cbn in Hg, Hgrey. subst.
      unfold_draw. cbn. repeat split.
    + rewrite (redrawPreview_plain {| this := f; host := h; log := l |} g Hgrey Hg).
      destruct (canRedraw _); destruct f; repeat split.
  - rewrite redrawPreview_detached by assumption. apply SameButView_refl.
Qed.

Lemma redrawPreview_returns (s : State Field H) :
  canRedraw (this s) = true ->
  exists s', redrawPreview s = Ok tt s' /\ SameButView (this s) (this s').
Proof.
  intros Hcan. pose proof (redrawPreview_frame s) as Hsame.
  destruct s as [f h l].
  destruct (fieldGroup_ f) as [g|] eqn:Hg.
  - destruct (isGreyBlock f) eqn:Hgrey.
    + destruct f. cbn in Hg, Hgrey. subst.
      unfold_draw. cbn. eexists. split; [reflexivity|]. repeat split.
    + rewrite (redrawPreview_plain {| this := f; host := h; log := l |} g Hgrey Hg)
        in *.
      cbn [this] in *. rewrite Hcan in *.
      eexists. split; [reflexivity | exact Hsame].
  - rewrite redrawPreview_detached in * by assumption.
    eexists. split; [reflexivity | exact Hsame].
Qed.

Lemma redrawPreview_throws (s : State Field H) :
  canRedraw (this s) = false ->
  redrawPreview s =
  Throw {| this := set_fieldGroup_ (Some [previewBackground]) (this s);
           host := host s; log := log s |}.
Proof.
  intros Hcan. pose proof (proj1 (canRedraw_false _) Hcan)
    as (Hgrey & Hg & a & iv & Ha & Hb).
  destruct (fieldGroup_ (this s)) as [g|] eqn:Hg'; [|congruence].
  rewrite (redrawPreview_plain s g Hgrey Hg'), Hcan.
  unfold drawnPreview, dataURIOf. rewrite Ha, Hb. reflexivity.
Qed.

End RedrawPreview.

(** ** Strings: cutting at the first parenthesis *)

Lemma append_empty (s : string) : EmptyString ++ s = s.
Proof. reflexivity. Qed.

Lemma append_String (c : ascii) (a b : string) :
  String c a ++ b = String c (a ++ b).
Proof. reflexivity. Qed.

Lemma indexOfFrom_found (c : ascii) (pre rest : string) (i : Z) :
  (0 <= i)%Z ->
  indexOfFrom c pre i = (-1)%Z ->
  indexOfFrom c (pre ++ String c rest) i = (i + Z.of_nat (String.length pre))%Z.
Proof.
  revert i. induction pre as [|d pre IH]; intros i Hi Hnone.
  - rewrite append_empty. cbn [indexOfFrom String.length].
    rewrite Ascii.eqb_refl. lia.
  - rewrite append_String. cbn [indexOfFrom String.length] in *.
    destruct (Ascii.eqb c d); [lia|].
    rewrite IH by (assumption || lia). lia.
Qed.

Lemma substring_prefix (pre rest : string) :
  substring 0 (String.length pre) (pre ++ rest) = pre.
Proof.
  induction pre as [|d pre IH].
  - rewrite append_empty. destruct rest; reflexivity.
  - rewrite append_String. cbn [String.length substring]. rewrite IH. reflexivity.
Qed.

Lemma length_append (a b : string) :
  String.length (a ++ b) = (String.length a + String.length b)%nat.
Proof.
  induction a as [|d a IH]; [reflexivity|].
  rewrite append_String. cbn [String.length]. rewrite IH. reflexivity.
Qed.

Lemma substr_to_first (c : ascii) (pre rest : string) :
  indexOf c pre = (-1)%Z ->
  substr 0 (indexOf c (pre ++ String c rest)) (pre ++ String c rest) = pre.
Proof.
  intros Hnone. unfold indexOf in *.
  rewrite indexOfFrom_found by (assumption || lia).
  unfold substr. cbn [Z.ltb Z.compare]. rewrite length_append. cbn [String.length].
  rewrite Z.max_l by lia. rewrite Z.min_l by lia.
  destruct pre as [|d pre]; [reflexivity|].
  destruct (_ <=? 0)%Z eqn:Hle;
    [apply Z.leb_le in Hle; cbn [String.length] in Hle; lia|].
  replace (Z.to_nat (0 + Z.of_nat (String.length (String d pre))))
    with (String.length (String d pre)) by lia.
  apply substring_prefix.
Qed.

Lemma substr_of_missing (s : string) : substr 0 (-1) s = EmptyString.
Proof.
  unfold substr. cbn [Z.ltb Z.compare]. rewrite Z.max_r by lia.
  rewrite Z.min_l by lia. reflexivity.
Qed.

Lemma indexOfFrom_none_any (c : ascii) (s : string) (i j : Z) :
  (0 <= i)%Z -> (0 <= j)%Z ->
  indexOfFrom c s i = (-1)%Z -> indexOfFrom c s j = (-1)%Z.
Proof.
  revert i j. induction s as [|d s IH]; intros i j Hi Hj; cbn [indexOfFrom].
  - reflexivity.
  - destruct (Ascii.eqb c d); [lia|]. apply IH; lia.
Qed.

Lemma indexOfFrom_range (c : ascii) (s : string) (i : Z) :
  (0 <= i)%Z -> indexOfFrom c s i = (-1)%Z \/ (i <= indexOfFrom c s i)%Z.
Proof.
  revert i. induction s as [|d s IH]; intros i Hi; cbn [indexOfFrom].
  - left. reflexivity.
  - destruct (Ascii.eqb c d); [right; lia|].
    destruct (IH (i + 1)%Z ltac:(lia)) as [Hn|Hr]; [left; exact Hn | right; lia].
Qed.

(** A string has no [c], or splits at its first [c]. *)
Lemma split_at_first (c : ascii) (s : string) :
  indexOf c s = (-1)%Z \/
  exists pre rest, s = pre ++ String c rest /\ indexOf c pre = (-1)%Z.
Proof.
  unfold indexOf. induction s as [|d s IH]; [left; reflexivity|].
  cbn [indexOfFrom]. destruct (Ascii.eqb c d) eqn:Heq.
  - right. apply Ascii.eqb_eq in Heq. subst d.
    exists EmptyString, s. split; reflexivity.
  - destruct IH as [Hnone|(pre & rest & -> & Hpre)].
    + left. apply (indexOfFrom_none_any c s 0 (0 + 1)); [lia | lia | exact Hnone].
    + right. exists (String d pre), rest. split; [reflexivity|].
      cbn [indexOfFrom]. rewrite Heq.
      apply (indexOfFrom_none_any c pre 0 (0 + 1)); [lia | lia | exact Hpre].
Qed.

(** * The field *)

Section FieldProperties.

Context {H : Type} `{Host H} (sub : Subclass H).

(** ** Options *)

(** C6. [parseFieldOptions] is a total function of its argument, the
    missing options object included. The width and the height are 16
    unless [parseInt] of the option is a number, which is then the value;
    [disableResize] is true exactly when the option is a non-empty string
    that lowercases to "true" or is "1". *)
Theorem parseFieldOptions_defaults (opts : option FieldAssetEditorOptions) :
  let parsed := parseFieldOptions opts in
  initWidth parsed =
    match opts with
    | Some o => if isNaN (parseInt (o_initWidth o)) then Integral 16
                else parseInt (o_initWidth o)
    | None => Integral 16
    end /\
  initHeight parsed =
    match opts with
    | Some o => if isNaN (parseInt (o_initHeight o)) then Integral 16
                else parseInt (o_initHeight o)
    | None => Integral 16
    end /\
  (disableResize parsed = true <->
   exists o s, opts = Some o /\ o_disableResize o = Some s /\ s <> EmptyString /\
               (toLowerCase s = "true" \/ s = "1")).
Proof.
  destruct opts as [[w h r]|]; cbn -[String.eqb toLowerCase].
  - unfold withDefault. repeat split.
    + destruct r as [[|c r]|]; cbn -[String.eqb toLowerCase]; try discriminate.
      intros Hr. exists {| o_initWidth := w; o_initHeight := h;
                           o_disableResize := Some (String c r) |}, (String c r).
      repeat split; [discriminate|].
      apply orb_true_iff in Hr. destruct Hr as [Hr|Hr]; [left|right];
        apply String.eqb_eq in Hr; exact Hr.
    + intros (o & s & Ho & Hs & Hne & Hv). injection Ho as <-.
      cbn [o_disableResize] in Hs. subst r.
      destruct s as [|c s]; [congruence|]. cbn [truthy].
      apply orb_true_iff. destruct Hv as [Hv|Hv]; [left|right];
        apply String.eqb_eq; exact Hv.
  - repeat split; [discriminate|].
    intros (o & s & Ho & _). discriminate.
Qed.

(** ** Grey blocks *)

(** C7. On a grey block [getValue] is the unescaped value text and
    [showEditor_] returns with the field, the host and the log as they
    were. [getDisplayText_] is that text cut at its first "(", with "(...)"
    appended: what stands before the first "(" is shown, which is nothing
    at all when the text has no "(". *)
Theorem grey_block_keeps_text (s : State Field H) :
  isGreyBlock (this s) = true ->
  let text := htmlUnescape (valueText (this s)) in
  getValue sub (this s) = text /\
  showEditor_ s = Ok tt s /\
  exists shown,
    getDisplayText_ (this s) = shown ++ "(...)" /\
    indexOf "(" shown = (-1)%Z /\
    ((exists rest, text = shown ++ "(" ++ rest) \/
     (indexOf "(" text = (-1)%Z /\ shown = EmptyString)).
Proof.
  intros Hgrey text. split; [|split].
  - unfold getValue. rewrite Hgrey. reflexivity.
  - unfold showEditor_, bind, getThis. rewrite Hgrey. reflexivity.
  - unfold getDisplayText_. fold text.
    destruct (split_at_first "(" text) as [Hnone|(pre & rest & Htext & Hpre)].
    + exists EmptyString. rewrite Hnone, substr_of_missing.
      split; [reflexivity|]. split; [reflexivity|]. right. split; reflexivity.
    + exists pre. rewrite Htext, substr_to_first by exact Hpre.
      split; [reflexivity|]. split; [exact Hpre|]. left. exists rest. reflexivity.
Qed.

(** ** The change listener *)

(** With no edit pending the listener is the redraw of the field with
    the asset looked up. *)
Lemma assetChangeListener_run (s : State Field H) :
  pendingEdit (this s) = false ->
  assetChangeListener sub s =
  redrawPreview
    {| this := set_asset
                 (if truthy (blockData (this s))
                  then lookupAsset (host s) (getAssetType sub) (blockData (this s))
                  else asset (this s)) (this s);
       host := host s; log := log s |}.
Proof.
  intros Hp.
  unfold assetChangeListener, getBlockData, modifyThis, query, bind, ret,
    getThis, setThis. rewrite Hp. cbn.
  destruct (truthy (blockData (this s))); cbn; [reflexivity|].
  destruct s as [f h l]. destruct f. reflexivity.
Qed.

(** However the redraw ends, the field holds the asset looked up. *)
Lemma assetChangeListener_asset (s : State Field H) :
  pendingEdit (this s) = false ->
  asset (this (final (assetChangeListener sub s))) =
  if truthy (blockData (this s))
  then lookupAsset (host s) (getAssetType sub) (blockData (this s))
  else asset (this s).
Proof.
  intros Hp. rewrite (assetChangeListener_run s Hp).
  match goal with |- asset (this (final (redrawPreview ?x))) = _ =>
    destruct (redrawPreview_frame x) as (_ & _ & Ha & _); rewrite Ha end.
  cbn [this]. destruct (this s); reflexivity.
Qed.

(** C4. With an edit pending the listener leaves everything as it was.
    Otherwise the field takes the asset the project returns for the stored
    block data, when that is a non-empty id, keeps its asset when it is
    not, and redraws the preview: the listener ends as [redrawPreview]
    ends on the field with that asset. On a rendered field that is not
    grey the group then holds the background and the image of that asset,
    and neither host nor log have moved; the redraw throws, after the
    background, when the asset is an animation without frames. *)
Theorem assetChangeListener_syncs (s : State Field H) :
  (pendingEdit (this s) = true -> assetChangeListener sub s = Ok tt s) /\
  (pendingEdit (this s) = false ->
   let found :=
     if truthy (blockData (this s))
     then lookupAsset (host s) (getAssetType sub) (blockData (this s))
     else asset (this s) in
   let synced := set_asset found (this s) in
   assetChangeListener sub s =
     redrawPreview {| this := synced; host := host s; log := log s |} /\
   asset (this (final (assetChangeListener sub s))) = found /\
   (isGreyBlock (this s) = false ->
    forall g, fieldGroup_ (this s) = Some g ->
    assetChangeListener sub s =
    (if match found with Some a => hasPreview a | None => true end
     then Ok tt else Throw)
      {| this :=
           set_fieldGroup_
             (Some (previewBackground ::
                    match found with
                    | Some a =>
                      match dataURIOf a (lightMode (this s)) with
                      | Some dataURI => [previewImage dataURI]
                      | None => []
                      end
                    | None => []
                    end)) synced;
         host := host s; log := log s |})).
Proof.
  split; intros Hp.
  - unfold assetChangeListener, bind, getThis. rewrite Hp. reflexivity.
  - intros found synced. rewrite (assetChangeListener_run s Hp). fold found synced.
    split; [reflexivity|]. split.
    + destruct (redrawPreview_frame {| this := synced; host := host s; log := log s |})
        as (_ & _ & Ha & _).
      rewrite Ha. subst synced. destruct (this s); reflexivity.
    + intros Hgrey g Hg.
      rewrite (redrawPreview_plain {| this := synced; host := host s; log := log s |} g)
        by (subst synced; destruct (this s); assumption).
      subst synced. unfold canRedraw, drawnPreview.
      destruct (this s); cbn in *. subst. reflexivity.
Qed.

End FieldProperties.

(** ** Opening the editor *)

Section ShowEditor.

Context {H : Type} `{Host H}.

Lemma openedAsset_type (h : H) (a : Asset) :
  asset_type (openedAsset h a) = asset_type a.
Proof. destruct a as [i m []]; reflexivity. Qed.

Lemma showEditor__run (s : State Field H) (a : Asset) :
  isGreyBlock (this s) = false ->
  asset (this s) = Some a ->
  let p := {| initWidth := initWidth (params (this s));
              initHeight := initHeight (params (this s));
              disableResize := disableResize (params (this s));
              params_blocksInfo := blocksInfo (this s) |} in
  let a1 := openedAsset (host s) a in
  let cs := (ViewOpen (editorKindOf a) a1 p :: restoreCalls (this s) ++
             [ProjectPushUndo; ViewOnHide (instance (this s)); ViewShow])%list in
  showEditor_ s =
  Ok tt {| this := set_asset (Some a1) (set_params p (this s));
           host := replay cs (host s);
           log := (log s ++ cs)%list |}.
Proof.
  destruct s as [f h l]. destruct f as [? ? ? ? ? ? urs ? ? ? ? ? ? ? ?].
  cbn. intros -> ->.
  unfold showEditor_, restoreCalls, openedAsset, editorKindOf, derefAsset,
    modifyThis, call, query, bind, ret, throw, getThis, setThis. cbn.
  destruct a as [i m [b|b|fr iv|d]]; destruct urs as [u|]; cbn;
    rewrite <- ?app_assoc; reflexivity.
Qed.

End ShowEditor.

Section EditorByType.

Context {H : Type} `{Host H}.

(** C3, as the code has it. The asset of a field that is not grey is of
    one of four types. The editor opened on it is the image editor for
    images and tiles, the animation editor for animations and the tilemap
    editor for tilemaps. The preview drawn for it on a rendered field is
    the background and an image made from the bitmap of an image or a
    tile, from the first frame of an animation, and from the data of a
    tilemap; for an animation without frames the redraw throws once the
    background is drawn. *)
Theorem editor_and_preview_by_type (s : State Field H) (a : Asset) :
  isGreyBlock (this s) = false ->
  asset (this s) = Some a ->
  (exists s' a1 p,
     showEditor_ s = Ok tt s' /\
     log s' = (log s ++
               ViewOpen (match asset_type a with
                         | Image | Tile => "image-editor"
                         | Animation => "animation-editor"
                         | Tilemap => "tilemap-editor"
                         end) a1 p ::
               restoreCalls (this s) ++
               [ProjectPushUndo; ViewOnHide (instance (this s)); ViewShow])%list /\
     asset_id a1 = asset_id a /\ asset_type a1 = asset_type a) /\
  (forall g, fieldGroup_ (this s) = Some g ->
     let light := lightMode (this s) in
     let drawn els := {| this := set_fieldGroup_ (Some els) (this s);
                         host := host s; log := log s |} in
     redrawPreview s =
     match asset_body a with
     | ImageBody bitmap | TileBody bitmap =>
       Ok tt (drawn [previewBackground;
                     SvgImage (bitmapToImageURI bitmap 32 light) 9 5 32 32])
     | AnimationBody (first :: _) _ =>
       Ok tt (drawn [previewBackground;
                     SvgImage (bitmapToImageURI first 32 light) 9 5 32 32])
     | AnimationBody [] _ =>
       Throw (drawn [previewBackground])
     | TilemapBody data =>
       Ok tt (drawn [previewBackground;
                     SvgImage (tilemapToImageURI data 32 light) 9 5 32 32])
     end).
Proof.
  intros Hgrey Ha. split.
  - rewrite (showEditor__run s a Hgrey Ha). cbn.
    eexists _, _, _. split; [reflexivity|]. split; [|split].
    + destruct a as [i m []]; reflexivity.
    + destruct a as [i m []]; reflexivity.
    + apply openedAsset_type.
  - intros g Hg. rewrite (redrawPreview_plain s g Hgrey Hg). cbn zeta.
    unfold canRedraw, drawnPreview, dataURIOf, hasPreview, previewImage.
    rewrite Hg, Hgrey, Ha. cbn.
    destruct (asset_body a) as [b|b|[|first frames] iv|d]; reflexivity.
Qed.

End EditorByType.

(** * The change event *)

Section ChangeEvent.

Context {H : Type} `{Host H}.

(** C2. [run] calls the project's redo (forward) or undo (backward), then
    the base [run], and then fires a new event that is not recorded for
    undo and whose two revisions are 0. The event is made for the block
    the workspace has under the id of this event's block: when there is
    one it is a change of "revision" on "tilemap-revision" from [null] to
    the project's revision, and when there is none the event is blank.
    [isNull] holds exactly when the two revisions are equal and the base
    [isNull] holds. *)
Theorem run_replays_project (e : BlocklyTilemapChange) (h : H) (l : list Call)
  (forward : bool) :
  let step := if forward then ProjectRedo else ProjectUndo in
  let h' := replay [step; SuperRun forward e] h in
  (exists ev,
     run forward {| this := e; host := h; log := l |} =
     Ok tt {| this := e; host := perform (EventsFire ev) h';
              log := (l ++ [step; SuperRun forward e; EventsFire ev])%list |} /\
     recordUndo ev = false /\
     oldRevision ev = 0 /\ newRevision ev = 0 /\
     ev_block ev = getBlockById h' (option_map blockId (ev_block e)) /\
     match ev_block ev with
     | Some _ =>
       ev_element ev = Some "tilemap-revision" /\ ev_name ev = Some "revision" /\
       ev_oldValue ev = JsNull /\ ev_newValue ev = JsNum (revision h')
     | None =>
       ev_element ev = None /\ ev_name ev = None /\
       ev_oldValue ev = JsUndefined /\ ev_newValue ev = JsUndefined
     end) /\
  (isNull e = true <-> oldRevision e = newRevision e /\ superIsNull e = true).
Proof.
  split.
  - exists (revisionEvent (replay [if forward then ProjectRedo else ProjectUndo;
                                   SuperRun forward e] h) e).
    split.
    { unfold run, call, query, bind, getThis. destruct forward; cbn;
        rewrite <- !app_assoc; reflexivity. }
    unfold revisionEvent, newBlocklyTilemapChange.
    destruct (getBlockById _ (option_map blockId (ev_block e))); cbn; repeat split.
  - unfold isNull. rewrite andb_true_iff, Z.eqb_eq. reflexivity.
Qed.

End ChangeEvent.

(** * The asset's bookkeeping *)

Lemma notIn_true (x : string) (l : list string) :
  notIn x l = true <-> ~ In x l.
Proof.
  unfold notIn. rewrite negb_true_iff. split.
  - intros Hf Hin. assert (existsb (String.eqb x) l = true) as Ht.
    { apply existsb_exists. exists x. split; [exact Hin | apply String.eqb_refl]. }
    congruence.
  - intros Hn. destruct (existsb (String.eqb x) l) eqn:He; [|reflexivity].
    apply existsb_exists in He. destruct He as (y & Hy & Heq).
    apply String.eqb_eq in Heq. subst y. contradiction.
Qed.

Lemma notIn_false (x : string) (l : list string) :
  notIn x l = false <-> In x l.
Proof.
  split.
  - intros Hf. destruct (in_dec string_dec x l) as [Hin|Hn]; [exact Hin|].
    apply notIn_true in Hn. congruence.
  - intros Hin. destruct (notIn x l) eqn:Hn; [|reflexivity].
    apply notIn_true in Hn. contradiction.
Qed.

Lemma count_occ_snoc_fresh (x : string) (l : list string) :
  ~ In x l -> count_occ string_dec (l ++ [x]) x = 1%nat.
Proof.
  intros Hn. rewrite count_occ_app. cbn.
  destruct (string_dec x x) as [_|Hne]; [|congruence].
  apply (count_occ_not_In string_dec) in Hn. rewrite Hn. reflexivity.
Qed.

Section Bookkeeping.

Context {H : Type} `{Host H}.

Lemma mustDuplicate_true (h : H) (sb : Block) (a : Asset) :
  mustDuplicate h sb a = true <->
  ~ In (blockId sb) (idsOf a) /\ isTemporary a = true /\
  exists id, In id (idsOf a) /\ getBlockById h (Some id) <> None.
Proof.
  unfold mustDuplicate, usedByLiveBlock.
  rewrite !andb_true_iff, notIn_true, existsb_exists.
  split.
  - intros [[Hn Ht] (id & Hin & Hd)]. repeat split; try assumption.
    exists id. split; [exact Hin|]. destruct (getBlockById h (Some id)); [discriminate|].
    discriminate.
  - intros (Hn & Ht & id & Hin & Hd). repeat split; try assumption.
    exists id. split; [exact Hin|]. destruct (getBlockById h (Some id)); [reflexivity|].
    congruence.
Qed.

(** An asset that has to be duplicated lists a block, so it has a meta. *)
Lemma mustDuplicate_meta (h : H) (sb : Block) (a : Asset) :
  mustDuplicate h sb a = true -> asset_meta a <> None.
Proof.
  intros Hd. apply mustDuplicate_true in Hd. destruct Hd as (_ & _ & id & Hin & _).
  unfold idsOf, metaOf in Hin. destruct (asset_meta a); [discriminate|].
  cbn in Hin. contradiction.
Qed.

Lemma withIDs_own (a : Asset) :
  idsOf a <> [] -> withIDs (idsOf a) a = a.
Proof.
  unfold withIDs, idsOf, metaOf, set_meta, set_blockIDs, emptyMeta.
  destruct a as [i [[dn [ids|]]|] b]; cbn; intros Hne;
    first [reflexivity | contradiction].
Qed.

(** C5, as the code has it. On a field that holds an asset and sits on a
    block, [updateAssetMeta] leaves an asset whose meta and block ids
    exist and list the block's id; an id that is listed is not pushed
    again, so it is listed once when it was new and as often as before
    when it was not. The block data becomes the asset's id and the asset
    is the last thing written to the project. When the block's id is new,
    the asset is temporary and one of its block ids is a live block, the
    project is first asked for a duplicate of the asset as it stands, the
    field moves to the duplicate with the block's id as its only block id,
    and the original is not written back. *)
Theorem updateAssetMeta_records_block (s : State Field H) (a : Asset) (sb : Block) :
  asset (this s) = Some a ->
  sourceBlock_ (this s) = Some sb ->
  (mustDuplicate (host s) sb a = true ->
   asset_meta (duplicateAsset (host s) a) <> None) ->
  exists s' a' m ids,
    updateAssetMeta s = Ok tt s' /\
    asset (this s') = Some a' /\
    asset_meta a' = Some m /\ blockIDs m = Some ids /\
    In (blockId sb) ids /\
    (In (blockId sb) (idsOf a) -> ids = idsOf a) /\
    (~ In (blockId sb) (idsOf a) ->
     count_occ string_dec ids (blockId sb) = 1%nat) /\
    blockData (this s') = Some (asset_id a') /\
    (~ In (blockId sb) (idsOf a) -> isTemporary a = true ->
     (exists id, In id (idsOf a) /\ getBlockById (host s) (Some id) <> None) ->
     a' = withIDs [blockId sb] (duplicateAsset (host s) a) /\
     log s' = (log s ++ [ProjectDuplicateAsset a; ProjectUpdateAsset a'])%list /\
     host s' = replay [ProjectDuplicateAsset a; ProjectUpdateAsset a'] (host s)) /\
    (mustDuplicate (host s) sb a = false ->
     asset_id a' = asset_id a /\ asset_body a' = asset_body a /\
     displayName m = displayName (metaOf a) /\
     log s' = (log s ++ [ProjectUpdateAsset a'])%list /\
     host s' = replay [ProjectUpdateAsset a'] (host s)).
Proof.
  intros Ha Hsb Hdup.
  rewrite (updateAssetMeta_run s a Ha)
    by (intros sb' Hsb'; rewrite Hsb in Hsb'; injection Hsb' as <-; exact Hdup).
  rewrite Hsb. unfold settledField. rewrite Hsb.
  set (a' := settledAsset (host s) (Some sb) a).
  assert (exists m ids, asset_meta a' = Some m /\ blockIDs m = Some ids /\
            (if mustDuplicate (host s) sb a then ids = [blockId sb]
             else if notIn (blockId sb) (idsOf a)
                  then ids = (idsOf a ++ [blockId sb])%list
                  else ids = idsOf a)) as (m & ids & Hm & Hids & Hcase).
  { subst a'. cbn. destruct (mustDuplicate (host s) sb a);
      [|destruct (notIn (blockId sb) (idsOf a))];
      eexists _, _; repeat split. }
  exists {| this := set_blockData (Some (asset_id a')) (set_asset (Some a') (this s));
            host := replay (settlingCalls (host s) (Some sb) a) (host s);
            log := (log s ++ settlingCalls (host s) (Some sb) a)%list |}, a', m, ids.
  cbn [this host log].
  destruct (mustDuplicate (host s) sb a) eqn:Hmd.
  - pose proof (proj1 (mustDuplicate_true _ _ _) Hmd) as (Hn & Ht & Hlive).
    subst ids. repeat split; try assumption.
    + left. reflexivity.
    + intros Hin. contradiction.
    + intros _. cbn. destruct (string_dec (blockId sb) (blockId sb)); congruence.
    + subst a'. cbn. rewrite Hmd. reflexivity.
    + unfold settlingCalls. rewrite Hmd. reflexivity.
    + unfold settlingCalls. rewrite Hmd. reflexivity.
    + discriminate.
    + discriminate.
    + discriminate.
    + discriminate.
    + discriminate.
  - assert (asset_id a' = asset_id a /\ asset_body a' = asset_body a /\
            displayName m = displayName (metaOf a)) as (Hid & Hbody & Hdn).
    { subst a'. cbn in *. rewrite Hmd in *.
      destruct (notIn (blockId sb) (idsOf a)); cbn in *;
        injection Hm as <-; repeat split. }
    assert (settlingCalls (host s) (Some sb) a = [ProjectUpdateAsset a']) as Hcalls.
    { unfold settlingCalls. rewrite Hmd. reflexivity. }
    rewrite Hcalls.
    destruct (notIn (blockId sb) (idsOf a)) eqn:Hn.
    + pose proof (proj1 (notIn_true _ _) Hn) as Hfresh.
      subst ids. repeat split; try assumption; try reflexivity.
      * apply in_or_app. right. left. reflexivity.
      * intros Hin. contradiction.
      * intros _. apply count_occ_snoc_fresh. exact Hfresh.
      * exfalso. assert (mustDuplicate (host s) sb a = true) as Ht
          by (apply mustDuplicate_true; auto). congruence.
      * exfalso. assert (mustDuplicate (host s) sb a = true) as Ht
          by (apply mustDuplicate_true; auto). congruence.
      * exfalso. assert (mustDuplicate (host s) sb a = true) as Ht
          by (apply mustDuplicate_true; auto). congruence.
    + pose proof (proj1 (notIn_false _ _) Hn) as Hin.
      subst ids. repeat split; try assumption; try reflexivity;
        try (intros; contradiction).
Qed.

End Bookkeeping.

(** * Closing the editor *)

Section EditorHidden.

Context {H : Type} `{Host H} (sub : Subclass H).

Lemma editorHidden_no_asset (s : State Field H) (r : Asset)
  (d : option PersistentData) :
  asset (this s) = None -> editorHidden sub (Some r) d s = Throw s.
Proof.
  intros Hnone. unfold editorHidden, derefAsset, bind, getThis, throw.
  rewrite Hnone. reflexivity.
Qed.

Lemma editorHidden_same (s : State Field H) (current r : Asset)
  (d : option PersistentData) :
  asset (this s) = Some current -> assetEquals current r = true ->
  editorHidden sub (Some r) d s = Ok tt s.
Proof.
  intros Hcur Heq. unfold editorHidden, derefAsset, bind, getThis, ret.
  rewrite Hcur, Heq. reflexivity.
Qed.

Lemma editorHidden_steps (s s2 s3 : State Field H) (current r : Asset)
  (d : option PersistentData) :
  asset (this s) = Some current ->
  assetEquals current r = false ->
  updateAssetMeta (adopting sub s r) = Ok tt s2 ->
  redrawPreview s2 = Ok tt s3 ->
  let f := set_undoRedoState d (this s3) in
  let fired := firedOnClose sub (getValue sub (this s)) (revision (host s)) f (host s3) in
  editorHidden sub (Some r) d s =
  Ok tt {| this := set_pendingEdit false f;
           host := replay fired (host s3);
           log := (log s3 ++ fired)%list |}.
Proof.
  intros Hcur Hne Hmeta Hdraw.
  unfold editorHidden, onEditorClose, updateAssetListener, derefAsset, modifyThis,
    call, query, bind, ret, throw, getThis, setThis.
  rewrite Hcur, Hne. cbn -[updateAssetMeta redrawPreview].
  unfold adopting, closingCalls in Hmeta. cbn -[updateAssetMeta] in Hmeta.
  rewrite <- !app_assoc. cbn [app]. rewrite Hmeta. rewrite Hdraw.
  unfold firedOnClose, changeEvent, newBlocklyTilemapChange. cbn.
  destruct (sourceBlock_ (this s3)); [destruct (eventsIsEnabled (host s3))|]; cbn;
    rewrite ?app_nil_r; reflexivity.
Qed.

Lemma settledAsset_kept (h : H) (sbo : option Block) (a : Asset) :
  (forall sb, sbo = Some sb -> mustDuplicate h sb a = false) ->
  asset_id (settledAsset h sbo a) = asset_id a /\
  asset_body (settledAsset h sbo a) = asset_body a /\
  settlingCalls h sbo a = [ProjectUpdateAsset (settledAsset h sbo a)].
Proof.
  intros Hno. unfold settlingCalls, settledAsset. destruct sbo as [sb|].
  - rewrite (Hno sb eq_refl).
    destruct (notIn (blockId sb) (idsOf a)); repeat split.
  - repeat split.
Qed.

Lemma settledField_frame (h : H) (a : Asset) (f : Field) :
  sourceBlock_ (settledField h a f) = sourceBlock_ f /\
  pendingEdit (settledField h a f) = pendingEdit f /\
  asset (settledField h a f) = Some (settledAsset h (sourceBlock_ f) a).
Proof. destruct f. repeat split. Qed.

(** What [updateAssetMeta] leaves of the field the redraw can tell. *)
Lemma canRedraw_settled (h : H) (r : Asset) (s : State Field H) :
  canRedraw (settledField h r (this (adopting sub s r))) =
  canRedraw (set_asset (Some (settledAsset h (sourceBlock_ (this s)) r)) (this s)).
Proof. destruct s as [f h0 l]. destruct f. reflexivity. Qed.

(** C1, as the code has it. The callback compares the result with the
    asset the field holds: on a field without an asset the comparison
    throws and nothing has changed. When the result equals the field's
    asset nothing changes and nothing is fired. Otherwise the field takes
    the result, [updateAssetMeta] settles it (completing its meta, or
    moving to the project's duplicate of it) and writes it to the project,
    and the preview is redrawn, which returns unless the field is rendered,
    not grey, and the settled asset an animation without frames. An event
    with the old and the new value of the field and the project's revision
    before and after is fired when the field sits on a block and Blockly's
    events are enabled, and only then. *)
Theorem editorHidden_adopts_result (s : State Field H) (r : Asset)
  (d : option PersistentData) :
  (forall h a, asset_meta a <> None -> asset_meta (duplicateAsset h a) <> None) ->
  (asset (this s) = None -> editorHidden sub (Some r) d s = Throw s) /\
  (forall current, asset (this s) = Some current ->
   assetEquals current r = true ->
   editorHidden sub (Some r) d s = Ok tt s) /\
  (forall current, asset (this s) = Some current ->
   assetEquals current r = false ->
   let h1 := host (adopting sub s r) in
   canRedraw (set_asset (Some (settledAsset h1 (sourceBlock_ (this s)) r)) (this s))
     = true ->
   exists s2 s3 s' a' dups,
     updateAssetMeta (adopting sub s r) = Ok tt s2 /\
     log s2 = (log s ++ closingCalls sub (this s) r ++ dups ++ [ProjectUpdateAsset a'])%list /\
     redrawPreview s2 = Ok tt s3 /\
     editorHidden sub (Some r) d s = Ok tt s' /\
     asset (this s') = Some a' /\
     a' = settledAsset h1 (sourceBlock_ (this s)) r /\
     ((forall sb, sourceBlock_ (this s) = Some sb -> mustDuplicate h1 sb r = false) ->
      asset_id a' = asset_id r /\ asset_body a' = asset_body r /\ dups = []) /\
     (forall sb, sourceBlock_ (this s) = Some sb -> mustDuplicate h1 sb r = true ->
      a' = withIDs [blockId sb] (duplicateAsset h1 r) /\
      dups = [ProjectDuplicateAsset r]) /\
     pendingEdit (this s') = false /\
     undoRedoState (this s') = d /\
     log s' =
     (log s3 ++
      match sourceBlock_ (this s) with
      | Some sb =>
        if eventsIsEnabled (host s3)
        then [EventsFire
                {| ev_block := Some sb; ev_element := Some "field";
                   ev_name := Some (name (this s));
                   ev_oldValue := JsString (getValue sub (this s));
                   ev_newValue :=
                     JsString (getValue sub (set_undoRedoState d (this s3)));
                   oldRevision := revision (host s);
                   newRevision := revision (host s3);
                   recordUndo := eventsRecordUndo (host s3) |}]
        else []
      | None => []
      end)%list).
Proof.
  intros Hlaw. split; [|split].
  - exact (editorHidden_no_asset s r d).
  - exact (fun current => editorHidden_same s current r d).
  - intros current Hcur Hne h1 Hcan.
    assert (updateAssetMeta (adopting sub s r) =
            Ok tt {| this := settledField h1 r (this (adopting sub s r));
                     host := replay (settlingCalls h1 (sourceBlock_ (this s)) r) h1;
                     log := (log (adopting sub s r) ++
                             settlingCalls h1 (sourceBlock_ (this s)) r)%list |}) as Hmeta.
    { rewrite (updateAssetMeta_run (adopting sub s r) r).
      - destruct s as [f h l]; destruct f; reflexivity.
      - destruct s as [f h l]; destruct f; reflexivity.
      - intros sb _ Hd. apply Hlaw. exact (mustDuplicate_meta _ _ _ Hd). }
    match type of Hmeta with _ = Ok tt ?x => set (s2 := x) in * end.
    assert (canRedraw (this s2) = true) as Hcan2
      by (subst s2; cbn [this]; rewrite canRedraw_settled; exact Hcan).
    destruct (redrawPreview_returns s2 Hcan2) as (s3 & Hdraw & Hsame).
    pose proof (editorHidden_steps s s2 s3 current r d Hcur Hne Hmeta Hdraw) as Hrun.
    cbn zeta in Hrun.
    destruct (settledField_frame h1 r (this (adopting sub s r))) as (Hsb2 & _ & Ha2).
    assert (sourceBlock_ (this (adopting sub s r)) = sourceBlock_ (this s)) as Hsb1
      by (destruct s as [f h l]; destruct f; reflexivity).
    rewrite Hsb1 in Hsb2, Ha2.
    destruct Hsame as (_ & Hname & Ha3 & _ & _ & _ & _ & _ & _ & _ & Hsb3 & _).
    cbn [this s2] in Hname, Ha3, Hsb3.
    set (a' := settledAsset h1 (sourceBlock_ (this s)) r) in *.
    assert (exists dups,
              settlingCalls h1 (sourceBlock_ (this s)) r =
              (dups ++ [ProjectUpdateAsset a'])%list /\
              ((forall sb, sourceBlock_ (this s) = Some sb ->
                           mustDuplicate h1 sb r = false) ->
               asset_id a' = asset_id r /\ asset_body a' = asset_body r /\ dups = []) /\
              (forall sb, sourceBlock_ (this s) = Some sb ->
                          mustDuplicate h1 sb r = true ->
               a' = withIDs [blockId sb] (duplicateAsset h1 r) /\
               dups = [ProjectDuplicateAsset r])) as (dups & Hcalls & Hkept & Hdup).
    { subst a'. destruct (sourceBlock_ (this s)) as [sb|] eqn:Hsb.
      - destruct (mustDuplicate h1 sb r) eqn:Hmd.
        + exists [ProjectDuplicateAsset r]. split; [|split].
          * unfold settlingCalls. rewrite Hmd. reflexivity.
          * intros Hno. specialize (Hno sb eq_refl). congruence.
          * intros sb' Hsb' _. injection Hsb' as <-.
            unfold settledAsset. rewrite Hmd. split; reflexivity.
        + exists []. split; [|split].
          * unfold settlingCalls. rewrite Hmd. reflexivity.
          * intros _.
            destruct (settledAsset_kept h1 (Some sb) r) as (Hi & Hb & _).
            { intros sb' Hsb'. injection Hsb' as <-. exact Hmd. }
            repeat split; assumption.
          * intros sb' Hsb' Hmd'. injection Hsb' as <-. congruence.
      - exists []. split; [reflexivity|split].
        + intros _. repeat split.
        + intros sb' Hsb'. discriminate. }
    eexists s2, s3, _, a', dups.
    split; [exact Hmeta|]. split.
    { subst s2. cbn [log adopting]. rewrite Hcalls, <- app_assoc. reflexivity. }
    split; [exact Hdraw|]. split; [exact Hrun|].
    cbn [this log]. split.
    { destruct (this s3); cbn in *. rewrite Ha3, Ha2. reflexivity. }
    split; [reflexivity|].
    split; [exact Hkept|]. split; [exact Hdup|].
    split; [destruct (this s3); reflexivity|].
    split; [destruct (this s3); reflexivity|].
    unfold firedOnClose, changeEvent.
    replace (sourceBlock_ (set_undoRedoState d (this s3))) with (sourceBlock_ (this s))
      by (rewrite <- Hsb2, <- Hsb3; destruct (this s3); reflexivity).
    assert (name (set_undoRedoState d (this s3)) = name (this s)) as ->.
    { transitivity (name (this s3)); [destruct (this s3); reflexivity|].
      rewrite Hname. destruct s as [f h l]; destruct f; reflexivity. }
    reflexivity.
Qed.

End EditorHidden.

(** * Entry points *)

Section EntryPoints.

Context {H : Type} `{Host H} (sub : Subclass H).

(** Whatever entry point runs, and however it ends, the host is left as
    the logged calls leave it. *)
Lemma tracked_enter (e : EntryPoint) : Tracked (enter sub e).
Proof.
  destruct e; cbn [enter]; unfold onInit;
    auto using tracked_redrawPreview, tracked_showEditor_, tracked_editorHidden,
      tracked_render_, tracked_updateEditable, tracked_onDispose,
      tracked_assetChangeListener.
  apply tracked_bind; [apply tracked_onValueChanged | intros; apply tracked_ret].
Qed.

End EntryPoints.

(** * The theorems at work *)

Section Runs.

Import TestHost.

(** The code on small inputs. *)
Example parseFieldOptions_sample :
  parseFieldOptions (H := T)
    (Some {| o_initWidth := Some "32"; o_initHeight := Some "tall";
             o_disableResize := Some "TRUE" |}) =
  {| initWidth := Integral 32; initHeight := Integral 16;
     disableResize := true; params_blocksInfo := None |}.
Proof. reflexivity. Qed.

Example parseFieldOptions_missing :
  parseFieldOptions (H := T) None =
  {| initWidth := Integral 16; initHeight := Integral 16;
     disableResize := false; params_blocksInfo := None |}.
Proof. reflexivity. Qed.

Example getDisplayText__of_a_name :
  getDisplayText_ (H := T) (field None None None) = "(...)".
Proof. reflexivity. Qed.

Example run_backward_sample :
  let e := {| ev_block := Some (block "b1"); ev_element := Some "field";
              ev_name := Some "img"; ev_oldValue := JsString "a";
              ev_newValue := JsString "b"; oldRevision := 3; newRevision := 4;
              recordUndo := true |} in
  let h := with_rev 4 (twoBlocks true) in
  log (final (run false {| this := e; host := h; log := [] |})) =
  [ProjectUndo; SuperRun false e;
   EventsFire {| ev_block := Some (block "b1");
                 ev_element := Some "tilemap-revision";
                 ev_name := Some "revision"; ev_oldValue := JsNull;
                 ev_newValue := JsNum 3; oldRevision := 0; newRevision := 0;
                 recordUndo := false |}].
Proof. reflexivity. Qed.

(** The block of the event is gone from the workspace: what is fired says
    nothing but the two revisions. *)
Example run_forward_block_gone :
  let e := {| ev_block := Some (block "b9"); ev_element := Some "field";
              ev_name := Some "img"; ev_oldValue := JsString "a";
              ev_newValue := JsString "b"; oldRevision := 3; newRevision := 4;
              recordUndo := true |} in
  let h := with_rev 3 (twoBlocks true) in
  log (final (run true {| this := e; host := h; log := [] |})) =
  [ProjectRedo; SuperRun true e;
   EventsFire {| ev_block := None; ev_element := None; ev_name := None;
                 ev_oldValue := JsUndefined; ev_newValue := JsUndefined;
                 oldRevision := 0; newRevision := 0; recordUndo := false |}].
Proof. reflexivity. Qed.

Example onDispose_removes_temporary :
  let s := start (field (Some temporary) (Some (block "b2")) (Some "t"))
                 (twoBlocks true) in
  exists s',
    onDispose imageField s = Ok tt s' /\
    asset (this s') = None /\
    blockData (this s') = Some EmptyString /\
    log s' = [ProjectRemoveAsset temporary; ProjectRemoveChangeListener Image 0] /\
    lookupAsset (host s') Image (Some "t") = None.
Proof. eexists. split; [vm_compute; reflexivity|]. repeat split. Qed.

Lemma copy_keeps_meta (h : T) (a : Asset) :
  asset_meta a <> None -> asset_meta (duplicateAsset h a) <> None.
Proof. intros Hm. exact Hm. Defined.

(** Closing the editor on the same asset changes nothing, closing it on
    a field without an asset throws, and closing it on an edited bitmap
    fires the event with revisions 0 and 1. *)
Lemma editorHidden_adopts_result_witness :
  editorHidden imageField (Some named) None unset = Throw unset /\
  editorHidden imageField (Some named) None (onBlock1 true) = Ok tt (onBlock1 true) /\
  exists s' a',
    editorHidden imageField (Some (image "a" (Some "A") ["b1"] dot)) None (onBlock1 true)
      = Ok tt s' /\
    asset (this s') = Some a' /\
    asset_id a' = "a" /\ asset_body a' = ImageBody dot /\
    last (log s') =
    Some (EventsFire {| ev_block := Some (block "b1"); ev_element := Some "field";
                        ev_name := Some "img"; ev_oldValue := JsString "a";
                        ev_newValue := JsString "a";
                        oldRevision := 0; newRevision := 1; recordUndo := true |}).
Proof.
  split; [|split].
  - exact (proj1 (editorHidden_adopts_result imageField unset named None
                    copy_keeps_meta) eq_refl).
  - exact (proj1 (proj2 (editorHidden_adopts_result imageField (onBlock1 true) named
                           None copy_keeps_meta)) named eq_refl eq_refl).
  - destruct (proj2 (proj2 (editorHidden_adopts_result imageField (onBlock1 true)
                              (image "a" (Some "A") ["b1"] dot) None copy_keeps_meta))
                named eq_refl eq_refl)
      as (s2 & s3 & s' & a' & dups & Hmeta & _ & Hdraw & Hrun & Ha & _ & Hkept & _ & _ & _ & Hlog).
    { vm_compute. reflexivity. }
    exists s', a'. split; [exact Hrun|]. split; [exact Ha|].
    destruct Hkept as (Hid & Hbody & _).
    { intros sb Hsb. injection Hsb as <-. reflexivity. }
    split; [exact Hid|]. split; [exact Hbody|].
    vm_compute in Hmeta. injection Hmeta as <-.
    vm_compute in Hdraw. injection Hdraw as <-.
    rewrite Hlog. reflexivity.
Defined.

(** C1 as stated fails. With Blockly's events disabled the field on block
    b1 takes a result that differs from its asset and no event is fired;
    and as the result is a temporary asset that block b2 uses, the field
    ends up with the project's copy of it, not with the result. *)
Lemma editorHidden_silent_and_copied :
  asset (this (onBlock1 false)) = Some named /\
  assetEquals (H := T) named temporary = false /\
  eventsIsEnabled (host (onBlock1 false)) = false /\
  exists s',
    editorHidden imageField (Some temporary) None (onBlock1 false) = Ok tt s' /\
    (forall e, ~ In (EventsFire e) (log s')) /\
    In (ProjectUpdateAsset (image "t-copy" None ["b1"] dot)) (log s') /\
    asset (this s') = Some (image "t-copy" None ["b1"] dot) /\
    asset (this s') <> Some temporary.
Proof.
  split; [reflexivity|]. split; [reflexivity|]. split; [reflexivity|].
  eexists. split; [vm_compute; reflexivity|].
  cbn [log this asset]. repeat split.
  - intros e Hin. cbn in Hin.
    repeat (destruct Hin as [Hin|Hin]; [discriminate|]). exact Hin.
  - cbn. auto 10.
  - discriminate.
Qed.

(** An animation opens the animation editor, and its preview comes from
    its first frame. *)
Lemma editor_and_preview_by_type_witness :
  let s := start (field (Some (flipbook [dot; blank])) (Some (block "b1")) (Some "walk"))
                 (twoBlocks true) in
  (exists s' a1 p,
     showEditor_ s = Ok tt s' /\
     log s' = [ViewOpen "animation-editor" a1 p; ProjectPushUndo; ViewOnHide 0; ViewShow] /\
     asset_id a1 = "walk" /\ asset_type a1 = Animation) /\
  redrawPreview s =
  Ok tt (start (set_fieldGroup_
                  (Some [previewBackground;
                         SvgImage (bitmapToImageURI (H := T) dot 32 false) 9 5 32 32])
                  (this s))
               (twoBlocks true)).
Proof.
  intros s.
  destruct (editor_and_preview_by_type s (flipbook [dot; blank]) eq_refl eq_refl)
    as [Hopen Hdraw].
  split; [exact Hopen | exact (Hdraw [] eq_refl)].
Defined.

(** C3 as stated fails. A field that has no group yet draws nothing: the
    redraw returns at once. And an animation may have no frames: the
    field that holds one opens the animation editor on it, but redrawing
    its preview throws when the background is drawn, and no image is
    made. *)
Lemma redrawPreview_animation_without_frames :
  let unrendered :=
    start (set_fieldGroup_ None (field (Some named) (Some (block "b1")) (Some "a")))
          (twoBlocks true) in
  let s := start (field (Some (flipbook [])) (Some (block "b1")) (Some "walk"))
                 (twoBlocks true) in
  (isGreyBlock (this unrendered) = false /\
   asset (this unrendered) = Some named /\
   redrawPreview unrendered = Ok tt unrendered /\
   fieldGroup_ (this unrendered) = None) /\
  (isGreyBlock (this s) = false /\
   asset (this s) = Some (flipbook []) /\
   asset_type (flipbook []) = Animation /\
   redrawPreview s =
   Throw (start (set_fieldGroup_ (Some [previewBackground]) (this s)) (twoBlocks true)) /\
   forall s', redrawPreview s <> Ok tt s').
Proof.
  intros unrendered s. split.
  - repeat split.
  - split; [reflexivity|]. split; [reflexivity|]. split; [reflexivity|].
    split; [reflexivity|]. intros s' Hok. discriminate.
Qed.

(** A pending edit shields the field; otherwise it takes what the project
    holds under its block data and draws it. When what the project holds
    is an animation that has lost its frames, the field takes it and the
    redraw throws. *)
Lemma assetChangeListener_syncs_witness :
  let stale := field (Some (image "a" None [] dot)) (Some (block "b1")) (Some "a") in
  assetChangeListener imageField (start (set_pendingEdit true stale) (twoBlocks true))
    = Ok tt (start (set_pendingEdit true stale) (twoBlocks true)) /\
  assetChangeListener imageField (start stale (twoBlocks true)) =
    Ok tt (start (set_fieldGroup_
                    (Some [previewBackground;
                           SvgImage (bitmapToImageURI (H := T) blank 32 false) 9 5 32 32])
                    (set_asset (Some named) stale))
                 (twoBlocks true)) /\
  assetChangeListener animationField hollow =
    Throw (start (set_fieldGroup_ (Some [previewBackground])
                    (set_asset (Some (flipbook [])) (this hollow)))
                 (host hollow)).
Proof.
  intros stale. split; [|split].
  - exact (proj1 (assetChangeListener_syncs imageField
                    (start (set_pendingEdit true stale) (twoBlocks true))) eq_refl).
  - destruct (proj2 (assetChangeListener_syncs imageField (start stale (twoBlocks true)))
                eq_refl) as (_ & _ & Hdrawn).
    exact (Hdrawn eq_refl [] eq_refl).
  - destruct (proj2 (assetChangeListener_syncs animationField hollow) eq_refl)
      as (_ & _ & Hdrawn).
    exact (Hdrawn eq_refl [] eq_refl).
Defined.

(** Block b1 meets a temporary asset that the live block b2 uses: it gets
    the copy. *)
Lemma updateAssetMeta_records_block_witness :
  let s := start (field (Some temporary) (Some (block "b1")) None) (twoBlocks true) in
  exists s' a',
    updateAssetMeta s = Ok tt s' /\
    asset (this s') = Some a' /\
    a' = image "t-copy" None ["b1"] dot /\
    blockData (this s') = Some (asset_id a') /\
    log s' = [ProjectDuplicateAsset temporary; ProjectUpdateAsset a'].
Proof.
  intros s.
  destruct (updateAssetMeta_records_block s temporary (block "b1") eq_refl eq_refl)
    as (s' & a' & m & ids & Hrun & Ha & _ & _ & _ & _ & _ & Hdata & Hdup & _).
  { intros _. discriminate. }
  destruct Hdup as (Hcopy & Hlog & _).
  { cbn. intros [Heq|[]]. discriminate. }
  { reflexivity. }
  { exists "b2". split; [left; reflexivity | discriminate]. }
  exists s', a'. repeat split; assumption.
Defined.

(** C5 as stated fails. Block b1 is listed twice on a temporary asset that
    also lists the live block b2: the id stays listed twice and no
    duplicate is asked for. And a field on a block but without an asset
    writes nothing back. *)
Lemma updateAssetMeta_listed_twice_not_copied :
  let shared := image "t" None ["b1"; "b1"; "b2"] dot in
  let s := start (field (Some shared) (Some (block "b1")) None)
                 (project [shared] true [block "b1"; block "b2"]) in
  let empty := start (field None (Some (block "b1")) None) (twoBlocks true) in
  isTemporary shared = true /\
  getBlockById (host s) (Some "b2") = Some (block "b2") /\
  (exists s',
     updateAssetMeta s = Ok tt s' /\
     asset (this s') = Some shared /\
     count_occ string_dec (idsOf shared) "b1" = 2%nat /\
     log s' = [ProjectUpdateAsset shared]) /\
  updateAssetMeta empty = Ok tt empty.
Proof.
  intros shared s empty. split; [reflexivity|]. split; [reflexivity|]. split.
  - eexists. split; [vm_compute; reflexivity|]. repeat split.
  - reflexivity.
Qed.

(** A grey block showing a call. *)
Lemma grey_block_keeps_text_witness :
  let f := {| instance := 0; name := "img"; asset := None;
              params := {| initWidth := Integral 16; initHeight := Integral 16;
                           disableResize := false; params_blocksInfo := None |};
              blocksInfo := None; lightMode := false; undoRedoState := None;
              pendingEdit := false; isGreyBlock := true;
              valueText := "sprites.create(img, 0)";
              sourceBlock_ := Some (block "b1"); fieldGroup_ := None;
              textElement_ := false; size_ := (0, 0)%Z; blockData := None |} in
  let s := start f (twoBlocks true) in
  getValue imageField f = "sprites.create(img, 0)" /\
  showEditor_ s = Ok tt s /\
  getDisplayText_ (H := T) f = "sprites.create(...)" /\
  exists shown,
    getDisplayText_ (H := T) f = shown ++ "(...)" /\
    indexOf "(" shown = (-1)%Z /\
    ((exists rest, "sprites.create(img, 0)" = shown ++ "(" ++ rest) \/
     (indexOf "(" "sprites.create(img, 0)" = (-1)%Z /\ shown = EmptyString)).
Proof.
  intros f s.
  destruct (grey_block_keeps_text imageField s eq_refl) as (Hv & Hshow & Htext).
  split; [exact Hv|]. split; [exact Hshow|]. split; [reflexivity | exact Htext].
Defined.

End Runs.

(** * Further properties of the code *)

(** ** The tiles a tilemap takes in when its editor opens *)

Section ProjectTiles.

Context {H : Type} `{Host H}.

Lemma tile_listed (t : TileAsset) (ts : list TileAsset) :
  existsb (fun t' => String.eqb (tile_id t') (tile_id t)) ts = true <->
  In (tile_id t) (List.map tile_id ts).
Proof.
  rewrite existsb_exists, in_map_iff. split.
  - intros (t' & Hin & Heq). apply String.eqb_eq in Heq. exists t'. auto.
  - intros (t' & Heq & Hin). exists t'. split; [exact Hin|].
    apply String.eqb_eq. exact Heq.
Qed.

Lemma addProjectTile_frame (h : H) (id : string) (d : TilemapData) (t : TileAsset) :
  tileWidth (tileset (addProjectTile h id d t)) = tileWidth (tileset d) /\
  layers (addProjectTile h id d t) = layers d /\
  tiles (tileset (addProjectTile h id d t)) =
    (if existsb (fun t' => String.eqb (tile_id t') (tile_id t)) (tiles (tileset d))
     then tiles (tileset d) else tiles (tileset d) ++ [t])%list.
Proof.
  unfold addProjectTile.
  destruct (existsb _ (tiles (tileset d))); destruct (isAssetUsed h t [id]);
    repeat split.
Qed.

Lemma addProjectTile_references (h : H) (id : string) (d : TilemapData)
  (t : TileAsset) (refs : list string) :
  projectReferences d = Some refs ->
  projectReferences (addProjectTile h id d t) =
  Some (refs ++ (if isAssetUsed h t [id] then [tile_id t] else []))%list.
Proof.
  intros Hrefs. unfold addProjectTile.
  destruct (existsb _ (tiles (tileset d))); destruct (isAssetUsed h t [id]); cbn;
    rewrite ?Hrefs, ?app_nil_r; reflexivity.
Qed.

Lemma fold_tiles_frame (h : H) (id : string) (all : list TileAsset) (d : TilemapData) :
  tileWidth (tileset (fold_left (addProjectTile h id) all d)) = tileWidth (tileset d) /\
  layers (fold_left (addProjectTile h id) all d) = layers d.
Proof.
  revert d. induction all as [|t all IH]; intros d; cbn [fold_left]; [split; reflexivity|].
  destruct (IH (addProjectTile h id d t)) as (Hw & Hl).
  destruct (addProjectTile_frame h id d t) as (Hw' & Hl' & _).
  split; congruence.
Qed.

Lemma fold_tiles_grow (h : H) (id : string) (all : list TileAsset) (d : TilemapData) :
  exists added,
    tiles (tileset (fold_left (addProjectTile h id) all d)) =
      (tiles (tileset d) ++ added)%list /\
    (forall t, In t added ->
       In t all /\ ~ In (tile_id t) (List.map tile_id (tiles (tileset d)))) /\
    (forall t, In t all ->
       In (tile_id t)
          (List.map tile_id (tiles (tileset (fold_left (addProjectTile h id) all d))))).
Proof.
  revert d. induction all as [|t all IH]; intros d; cbn [fold_left].
  - exists []. rewrite app_nil_r. split; [reflexivity|].
    split; intros t' Hin; destruct Hin.
  - destruct (IH (addProjectTile h id d t)) as (added & Htiles & Hadded & Hall).
    destruct (addProjectTile_frame h id d t) as (_ & _ & Hstep).
    destruct (existsb _ (tiles (tileset d))) eqn:Hlisted.
    + exists added. split; [rewrite Htiles, Hstep; reflexivity|]. split.
      * intros t' Hin. destruct (Hadded t' Hin) as (Hin' & Hfresh).
        rewrite Hstep in Hfresh. split; [right; exact Hin' | exact Hfresh].
      * intros t' [<-|Hin]; [|exact (Hall t' Hin)].
        rewrite Htiles, Hstep, List.map_app. apply in_or_app. left.
        apply tile_listed. exact Hlisted.
    + exists (t :: added).
      split; [rewrite Htiles, Hstep, <- app_assoc; reflexivity|]. split.
      * intros t' [<-|Hin].
        -- split; [left; reflexivity|]. intros Hin.
           apply tile_listed in Hin. congruence.
        -- destruct (Hadded t' Hin) as (Hin' & Hfresh). split; [right; exact Hin'|].
           intros Hold. apply Hfresh. rewrite Hstep, List.map_app.
           apply in_or_app. left. exact Hold.
      * intros t' [<-|Hin]; [|exact (Hall t' Hin)].
        rewrite Htiles, Hstep, !List.map_app. apply in_or_app. left.
        apply in_or_app. right. left. reflexivity.
Qed.

Lemma NoDup_snoc (x : string) (l : list string) :
  NoDup l -> ~ In x l -> NoDup (l ++ [x]).
Proof.
  intros Hnd Hfresh. apply NoDup_app. split; [exact Hnd|].
  split; [|apply NoDup_singleton].
  intros y Hy Hx. apply list_elem_of_singleton in Hx. subst y.
  apply Hfresh. apply list_elem_of_In. exact Hy.
Qed.

Lemma fold_tiles_NoDup (h : H) (id : string) (all : list TileAsset) (d : TilemapData) :
  NoDup (List.map tile_id (tiles (tileset d))) ->
  NoDup (List.map tile_id (tiles (tileset (fold_left (addProjectTile h id) all d)))).
Proof.
  revert d. induction all as [|t all IH]; intros d Hnd; cbn [fold_left]; [exact Hnd|].
  apply IH. destruct (addProjectTile_frame h id d t) as (_ & _ & Hstep).
  rewrite Hstep. destruct (existsb _ (tiles (tileset d))) eqn:Hlisted; [exact Hnd|].
  rewrite List.map_app. cbn [List.map].
  apply NoDup_snoc; [exact Hnd|].
  intros Hin. apply tile_listed in Hin. congruence.
Qed.

Lemma fold_tiles_references (h : H) (id : string) (all : list TileAsset)
  (d : TilemapData) (refs : list string) :
  projectReferences d = Some refs ->
  projectReferences (fold_left (addProjectTile h id) all d) =
  Some (refs ++ List.map tile_id
                  (List.filter (fun t => isAssetUsed h t [id]) all))%list.
Proof.
  revert d refs. induction all as [|t all IH]; intros d refs Hrefs; cbn [fold_left].
  - cbn. rewrite app_nil_r. exact Hrefs.
  - rewrite (IH _ _ (addProjectTile_references h id d t refs Hrefs)).
    cbn [List.filter]. destruct (isAssetUsed h t [id]); cbn [List.map].
    + rewrite <- app_assoc. reflexivity.
    + rewrite app_nil_r. reflexivity.
Qed.

Lemma showEditor__opens_tilemap (s : State Field H) (a : Asset) (d : TilemapData) :
  isGreyBlock (this s) = false ->
  asset (this s) = Some a ->
  asset_body a = TilemapBody d ->
  exists s',
    showEditor_ s = Ok tt s' /\
    asset (this s') =
    Some (set_body (TilemapBody (withProjectTiles (host s) (asset_id a) d)) a).
Proof.
  intros Hgrey Ha Hbody. rewrite (showEditor__run s a Hgrey Ha).
  eexists. split; [reflexivity|]. cbn [this].
  unfold openedAsset. rewrite Hbody. destruct (this s); reflexivity.
Qed.

(** X1. Opening the editor on a tilemap keeps the tiles of its tileset in
    place and appends tiles of the project: each appended tile is a project
    tile whose id the tileset did not have, and afterwards the id of every
    project tile is in the tileset. Tile width and layers are untouched. *)
Theorem showEditor__takes_in_project_tiles (s : State Field H) (a : Asset)
  (d : TilemapData) :
  isGreyBlock (this s) = false ->
  asset (this s) = Some a ->
  asset_body a = TilemapBody d ->
  let all := getProjectTiles (host s) (tileWidth (tileset d)) true in
  exists s' d' added,
    showEditor_ s = Ok tt s' /\
    asset (this s') = Some (set_body (TilemapBody d') a) /\
    tiles (tileset d') = (tiles (tileset d) ++ added)%list /\
    (forall t, In t added ->
       In t all /\ ~ In (tile_id t) (List.map tile_id (tiles (tileset d)))) /\
    (forall t, In t all -> In (tile_id t) (List.map tile_id (tiles (tileset d')))) /\
    tileWidth (tileset d') = tileWidth (tileset d) /\
    layers d' = layers d.
Proof.
  intros Hgrey Ha Hbody all.
  destruct (showEditor__opens_tilemap s a d Hgrey Ha Hbody) as (s' & Hrun & Hasset).
  unfold withProjectTiles in Hasset. fold all in Hasset.
  destruct (fold_tiles_grow (host s) (asset_id a) all (set_projectReferences (Some []) d))
    as (added & Htiles & Hadded & Hall).
  destruct (fold_tiles_frame (host s) (asset_id a) all (set_projectReferences (Some []) d))
    as (Hw & Hl).
  cbn [set_projectReferences tileset tiles layers] in Htiles, Hadded, Hw, Hl.
  eexists s', _, added. split; [exact Hrun|]. split; [exact Hasset|].
  split; [exact Htiles|]. split; [exact Hadded|]. split; [exact Hall|].
  split; [exact Hw | exact Hl].
Qed.

(** X2. If no two tiles of the tilemap's tileset share an id before the
    editor opens, none do afterwards: a project tile is appended at most
    once, also when the project lists an id twice. *)
Theorem showEditor__keeps_tile_ids_distinct (s : State Field H) (a : Asset)
  (d : TilemapData) :
  isGreyBlock (this s) = false ->
  asset (this s) = Some a ->
  asset_body a = TilemapBody d ->
  NoDup (List.map tile_id (tiles (tileset d))) ->
  exists s' d',
    showEditor_ s = Ok tt s' /\
    asset (this s') = Some (set_body (TilemapBody d') a) /\
    NoDup (List.map tile_id (tiles (tileset d'))).
Proof.
  intros Hgrey Ha Hbody Hnd.
  destruct (showEditor__opens_tilemap s a d Hgrey Ha Hbody) as (s' & Hrun & Hasset).
  eexists s', _. split; [exact Hrun|]. split; [exact Hasset|].
  unfold withProjectTiles. apply fold_tiles_NoDup. exact Hnd.
Qed.

(** X3. Opening the editor on a tilemap recomputes its project references
    from nothing: whatever they were, they become the ids of the project
    tiles that the project uses outside this tilemap, in project order. *)
Theorem showEditor__recomputes_projectReferences (s : State Field H) (a : Asset)
  (d : TilemapData) :
  isGreyBlock (this s) = false ->
  asset (this s) = Some a ->
  asset_body a = TilemapBody d ->
  exists s' d',
    showEditor_ s = Ok tt s' /\
    asset (this s') = Some (set_body (TilemapBody d') a) /\
    projectReferences d' =
    Some (List.map tile_id
            (List.filter (fun t => isAssetUsed (host s) t [asset_id a])
               (getProjectTiles (host s) (tileWidth (tileset d)) true))).
Proof.
  intros Hgrey Ha Hbody.
  destruct (showEditor__opens_tilemap s a d Hgrey Ha Hbody) as (s' & Hrun & Hasset).
  eexists s', _. split; [exact Hrun|]. split; [exact Hasset|].
  unfold withProjectTiles.
  rewrite (fold_tiles_references (host s) (asset_id a) _
             (set_projectReferences (Some []) d) [] eq_refl).
  reflexivity.
Qed.

(** X4. On a field that is not grey and holds no asset [showEditor_]
    throws: no editor view is opened and no undo state is pushed, but the
    blocks info has already been hung on the field's params. *)
Theorem showEditor__throws_without_asset (s : State Field H) :
  isGreyBlock (this s) = false ->
  asset (this s) = None ->
  exists s',
    showEditor_ s = Throw s' /\
    host s' = host s /\ log s' = log s /\
    params_blocksInfo (params (this s')) = blocksInfo (this s) /\
    asset (this s') = None.
Proof.
  intros Hgrey Ha. destruct s as [f h l]. destruct f. cbn in Hgrey, Ha. subst.
  eexists. split; [reflexivity|]. repeat split.
Qed.

End ProjectTiles.

(** ** More on updateAssetMeta *)

Section SettlingTwice.

Context {H : Type} `{Host H}.

Ltac unfold_meta :=
  unfold updateAssetMeta, isTemporaryAsset, assignBlockIDs, assignMeta,
    setBlockData, getBlockData, derefBlockIDs, derefMeta, derefAsset,
    modifyThis, call, query, bind, ret, throw, getThis, setThis.

Lemma settledAsset_lists_block (h : H) (sb : Block) (a : Asset) :
  In (blockId sb) (idsOf (settledAsset h (Some sb) a)) /\
  asset_meta (settledAsset h (Some sb) a) <> None.
Proof.
  unfold settledAsset.
  destruct (mustDuplicate h sb a); [split; [left; reflexivity | discriminate]|].
  destruct (notIn (blockId sb) (idsOf a)) eqn:Hn.
  - split; [|discriminate]. cbn. apply in_or_app. right. left. reflexivity.
  - split; [|discriminate]. cbn. apply notIn_false. exact Hn.
Qed.

Lemma withIDs_of_listed (a : Asset) :
  asset_meta a <> None -> blockIDs (metaOf a) <> None -> withIDs (idsOf a) a = a.
Proof.
  unfold withIDs, idsOf, metaOf, set_meta, set_blockIDs.
  destruct a as [i [[dn [ids|]]|] b]; cbn; intros Hm Hids;
    first [reflexivity | contradiction].
Qed.

Lemma set_same_asset (f : Field) (a : Asset) :
  asset f = Some a -> blockData f = Some (asset_id a) ->
  set_blockData (Some (asset_id a)) (set_asset (Some a) f) = f.
Proof. destruct f; cbn; intros -> ->; reflexivity. Qed.

(** The state [updateAssetMeta] throws in. *)
Lemma updateAssetMeta_throws (s : State Field H) (a : Asset) (sb : Block) :
  asset (this s) = Some a ->
  sourceBlock_ (this s) = Some sb ->
  mustDuplicate (host s) sb a = true ->
  asset_meta (duplicateAsset (host s) a) = None ->
  updateAssetMeta s =
  Throw {| this := set_asset (Some (duplicateAsset (host s) a)) (this s);
           host := perform (ProjectDuplicateAsset a) (host s);
           log := (log s ++ [ProjectDuplicateAsset a])%list |}.
Proof.
  destruct s as [f h l]. destruct f as [? ? ? ? ? ? ? ? ? ? sbo ? ? ? ?].
  cbn. intros -> -> Hmd Hnone.
  unfold mustDuplicate, isTemporary, usedByLiveBlock, idsOf, metaOf in Hmd.
  destruct a as [i [[dn [ids|]]|] b]; cbn in Hmd;
    rewrite ?andb_false_r in Hmd; try discriminate.
  apply andb_true_iff in Hmd. destruct Hmd as (Hmd & Hused).
  apply andb_true_iff in Hmd. destruct Hmd as (Hn & Htemp).
  unfold_meta. cbn. rewrite Hn.
  destruct ids as [|x ids]; [discriminate|].
  cbn -[existsb]. rewrite Htemp. cbn -[existsb]. rewrite Hused. cbn.
  rewrite Hnone. reflexivity.
Qed.

(** X5. [updateAssetMeta] settles a settled field to itself: run a second
    time it changes neither the asset nor the block data, takes no
    duplicate, and only writes the same asset to the project again. *)
Theorem updateAssetMeta_twice (s : State Field H) (a : Asset) (sb : Block) :
  asset (this s) = Some a ->
  sourceBlock_ (this s) = Some sb ->
  (mustDuplicate (host s) sb a = true ->
   asset_meta (duplicateAsset (host s) a) <> None) ->
  exists s1 a1,
    updateAssetMeta s = Ok tt s1 /\
    asset (this s1) = Some a1 /\
    updateAssetMeta s1 =
    Ok tt {| this := this s1;
             host := perform (ProjectUpdateAsset a1) (host s1);
             log := (log s1 ++ [ProjectUpdateAsset a1])%list |}.
Proof.
  intros Ha Hsb Hdup.
  pose proof (updateAssetMeta_run s a Ha) as Hrun.
  rewrite Hsb in Hrun.
  specialize (Hrun ltac:(intros sb' Hsb'; injection Hsb' as <-; exact Hdup)).
  set (a1 := settledAsset (host s) (Some sb) a) in *.
  match type of Hrun with _ = Ok tt ?x => set (s1 := x) in * end.
  exists s1, a1. split; [exact Hrun|].
  destruct (settledAsset_lists_block (host s) sb a) as (Hin & Hmeta). fold a1 in Hin, Hmeta.
  assert (asset (this s1) = Some a1 /\ sourceBlock_ (this s1) = Some sb /\
          blockData (this s1) = Some (asset_id a1)) as (Ha1 & Hsb1 & Hdata1).
  { subst s1. cbn [this]. unfold settledField. rewrite Hsb. fold a1.
    destruct (this s); cbn in *. repeat split. exact Hsb. }
  split; [exact Ha1|].
  assert (notIn (blockId sb) (idsOf a1) = false) as Hlisted by (apply notIn_false; exact Hin).
  assert (forall h, mustDuplicate h sb a1 = false) as Hno.
  { intros h. unfold mustDuplicate. rewrite Hlisted. reflexivity. }
  rewrite (updateAssetMeta_run s1 a1 Ha1)
    by (intros sb' Hsb' Hd; rewrite Hsb1 in Hsb'; injection Hsb' as <-;
        rewrite Hno in Hd; discriminate).
  rewrite Hsb1.
  assert (settledAsset (host s1) (Some sb) a1 = a1) as Hfix.
  { unfold settledAsset. rewrite Hno, Hlisted. apply withIDs_of_listed; [exact Hmeta|].
    unfold idsOf in Hin. destruct (blockIDs (metaOf a1)); [discriminate | destruct Hin]. }
  unfold settlingCalls. rewrite Hno, Hfix. cbn [replay fold_left].
  f_equal. f_equal.
  unfold settledField. rewrite Hsb1, Hfix.
  apply set_same_asset; assumption.
Qed.

(** X6. Without a source block [updateAssetMeta] records nothing: the block
    ids are as they were (an empty list when the asset had none), the block
    data is untouched, no duplicate is taken, and the asset, its meta now
    in place, is written to the project once. *)
Theorem updateAssetMeta_without_block (s : State Field H) (a : Asset) :
  asset (this s) = Some a ->
  sourceBlock_ (this s) = None ->
  exists s' a' m,
    updateAssetMeta s = Ok tt s' /\
    asset (this s') = Some a' /\
    asset_meta a' = Some m /\
    blockIDs m = Some (idsOf a) /\
    displayName m = displayName (metaOf a) /\
    asset_id a' = asset_id a /\ asset_body a' = asset_body a /\
    blockData (this s') = blockData (this s) /\
    log s' = (log s ++ [ProjectUpdateAsset a'])%list.
Proof.
  intros Ha Hsb.
  rewrite (updateAssetMeta_run s a Ha) by (intros sb Hsb'; congruence).
  rewrite Hsb. unfold settledField. rewrite Hsb. cbn.
  eexists _, _, _. split; [reflexivity|]. cbn.
  destruct (this s); cbn. repeat split.
Qed.

(** X7. On a field with an asset and a source block [updateAssetMeta] throws
    in one case only: it takes a duplicate and the duplicate has no meta.
    The project has then been asked for the duplicate and the field holds
    it, but no block id is recorded, the block data is as before, and
    nothing is written back. *)
Theorem updateAssetMeta_throws_only_on_bare_copy (s : State Field H) (a : Asset)
  (sb : Block) :
  asset (this s) = Some a ->
  sourceBlock_ (this s) = Some sb ->
  ((exists s', updateAssetMeta s = Throw s') <->
   mustDuplicate (host s) sb a = true /\
   asset_meta (duplicateAsset (host s) a) = None) /\
  (forall s', updateAssetMeta s = Throw s' ->
     asset (this s') = Some (duplicateAsset (host s) a) /\
     blockData (this s') = blockData (this s) /\
     log s' = (log s ++ [ProjectDuplicateAsset a])%list).
Proof.
  intros Ha Hsb.
  destruct (mustDuplicate (host s) sb a) eqn:Hmd.
  - destruct (asset_meta (duplicateAsset (host s) a)) as [m|] eqn:Hm.
    + rewrite (updateAssetMeta_run s a Ha)
        by (intros sb' Hsb' _; rewrite Hm; discriminate).
      split; [split|].
      * intros (s' & Hs'). discriminate.
      * intros (_ & Hnone). discriminate.
      * intros s' Hs'. discriminate.
    + rewrite (updateAssetMeta_throws s a sb Ha Hsb Hmd Hm).
      split; [split|].
      * intros _. split; reflexivity.
      * intros _. eexists. reflexivity.
      * intros s' Hs'. injection Hs' as <-. cbn. destruct (this s); repeat split.
  - rewrite (updateAssetMeta_run s a Ha)
      by (intros sb' Hsb'; rewrite Hsb in Hsb'; injection Hsb' as <-; congruence).
    split; [split|].
    + intros (s' & Hs'). discriminate.
    + intros (Hd & _). discriminate.
    + intros s' Hs'. discriminate.
Qed.

End SettlingTwice.

(** ** The editor's callback when settling fails *)

Section FailedEdit.

Context {H : Type} `{Host H} (sub : Subclass H).

Ltac unfold_meta :=
  unfold updateAssetMeta, isTemporaryAsset, assignBlockIDs, assignMeta,
    setBlockData, getBlockData, derefBlockIDs, derefMeta, derefAsset,
    modifyThis, call, query, bind, ret, throw, getThis, setThis.

(** However [updateAssetMeta] ends, it leaves [pendingEdit] alone. *)
Lemma updateAssetMeta_keeps_pendingEdit (s : State Field H) :
  pendingEdit (this (final (updateAssetMeta s))) = pendingEdit (this s).
Proof.
  destruct (asset (this s)) as [a|] eqn:Ha.
  - destruct (sourceBlock_ (this s)) as [sb|] eqn:Hsb.
    + destruct (mustDuplicate (host s) sb a) eqn:Hmd.
      * destruct (asset_meta (duplicateAsset (host s) a)) as [m|] eqn:Hm.
        -- rewrite (updateAssetMeta_run s a Ha)
             by (intros sb' _ _; rewrite Hm; discriminate).
           cbn. destruct (this s); reflexivity.
        -- rewrite (updateAssetMeta_throws s a sb Ha Hsb Hmd Hm).
           cbn. destruct (this s); reflexivity.
      * rewrite (updateAssetMeta_run s a Ha)
          by (intros sb' Hsb'; rewrite Hsb in Hsb'; injection Hsb' as <-; congruence).
        cbn. destruct (this s); reflexivity.
    + rewrite (updateAssetMeta_run s a Ha) by (intros sb Hsb'; congruence).
      cbn. destruct (this s); reflexivity.
  - rewrite (updateAssetMeta_no_asset s Ha). reflexivity.
Qed.

Lemma editorHidden_fails (s s2 : State Field H) (current r : Asset)
  (d : option PersistentData) :
  asset (this s) = Some current ->
  assetEquals current r = false ->
  updateAssetMeta (adopting sub s r) = Throw s2 ->
  editorHidden sub (Some r) d s = Throw s2.
Proof.
  intros Hcur Hne Hmeta.
  unfold editorHidden, onEditorClose, updateAssetListener, derefAsset, modifyThis,
    call, query, bind, ret, throw, getThis, setThis.
  rewrite Hcur, Hne. cbn -[updateAssetMeta redrawPreview].
  unfold adopting, closingCalls in Hmeta. cbn -[updateAssetMeta] in Hmeta.
  rewrite <- !app_assoc. cbn [app]. rewrite Hmeta. reflexivity.
Qed.

Lemma editorHidden_redraw_fails (s s2 s3 : State Field H) (current r : Asset)
  (d : option PersistentData) :
  asset (this s) = Some current ->
  assetEquals current r = false ->
  updateAssetMeta (adopting sub s r) = Ok tt s2 ->
  redrawPreview s2 = Throw s3 ->
  editorHidden sub (Some r) d s = Throw s3.
Proof.
  intros Hcur Hne Hmeta Hdraw.
  unfold editorHidden, onEditorClose, updateAssetListener, derefAsset, modifyThis,
    call, query, bind, ret, throw, getThis, setThis.
  rewrite Hcur, Hne. cbn -[updateAssetMeta redrawPreview].
  unfold adopting, closingCalls in Hmeta. cbn -[updateAssetMeta] in Hmeta.
  rewrite <- !app_assoc. cbn [app]. rewrite Hmeta. rewrite Hdraw. reflexivity.
Qed.

(** X8. On a field without an asset the editor's callback throws at the
    comparison and leaves everything as it was. On a field that holds an
    asset a callback that throws, in [updateAssetMeta] or in the redraw,
    does so with the edit still marked as pending, and the change listener
    called on the state it leaves returns at once. *)
Theorem editorHidden_failure_mutes_listener (s : State Field H) (r : Asset)
  (d : option PersistentData) :
  (asset (this s) = None -> editorHidden sub (Some r) d s = Throw s) /\
  (forall current s',
     asset (this s) = Some current ->
     editorHidden sub (Some r) d s = Throw s' ->
     pendingEdit (this s') = true /\
     assetChangeListener sub s' = Ok tt s').
Proof.
  split; [exact (editorHidden_no_asset sub s r d)|].
  intros current s' Hcur Hthrow.
  assert (pendingEdit (this s') = true) as Hp.
  { destruct (assetEquals current r) eqn:Hne.
    { rewrite (editorHidden_same sub s current r d Hcur Hne) in Hthrow.
      discriminate. }
    pose proof (updateAssetMeta_keeps_pendingEdit (adopting sub s r)) as Hkeep.
    assert (pendingEdit (this (adopting sub s r)) = true) as Hset
      by (destruct s as [f h l]; destruct f; reflexivity).
    rewrite Hset in Hkeep.
    destruct (updateAssetMeta (adopting sub s r)) as [[] s2|s2] eqn:Hmeta;
      cbn [final] in Hkeep.
    - pose proof (redrawPreview_frame s2) as Hsame.
      destruct (redrawPreview s2) as [[] s3|s3] eqn:Hdraw; cbn [final] in Hsame.
      + rewrite (editorHidden_steps sub s s2 s3 current r d Hcur Hne Hmeta Hdraw)
          in Hthrow.
        discriminate.
      + rewrite (editorHidden_redraw_fails s s2 s3 current r d Hcur Hne Hmeta Hdraw)
          in Hthrow.
        injection Hthrow as <-.
        destruct Hsame as (_ & _ & _ & _ & _ & _ & _ & Hpend & _).
        rewrite Hpend. exact Hkeep.
    - rewrite (editorHidden_fails s s2 current r d Hcur Hne Hmeta) in Hthrow.
      injection Hthrow as <-. exact Hkeep. }
  split; [exact Hp|].
  unfold assetChangeListener, bind, getThis. rewrite Hp. reflexivity.
Qed.

End FailedEdit.

(** ** Drawing *)

Section Drawing.

Context {H : Type} `{Host H} (sub : Subclass H).

(** X9. Redrawing a rendered field that is not grey, and whose asset, if
    it has one, is not an animation without frames, throws away what the
    group held and draws the background and, when there is an asset, one
    image; the host is not called, and a second redraw changes nothing. *)
Theorem redrawPreview_idempotent (s : State Field H) (g : list SvgEl) :
  isGreyBlock (this s) = false ->
  fieldGroup_ (this s) = Some g ->
  match asset (this s) with
  | Some a => hasPreview a = true
  | None => True
  end ->
  exists s1,
    redrawPreview s = Ok tt s1 /\
    redrawPreview s1 = Ok tt s1 /\
    host s1 = host s /\ log s1 = log s /\
    match asset (this s) with
    | Some a =>
      exists dataURI,
        dataURIOf a (lightMode (this s)) = Some dataURI /\
        fieldGroup_ (this s1) = Some [previewBackground; previewImage dataURI]
    | None => fieldGroup_ (this s1) = Some [previewBackground]
    end.
Proof.
  intros Hgrey Hg Hprev. destruct s as [f h l].
  destruct f as [? ? a ? ? ? ? ? ? ? ? ? ? ? ?]. cbn in Hgrey, Hg, Hprev. subst.
  destruct a as [[i m [b|b|[|first frames] iv|d]]|]; try discriminate;
    eexists; (split; [reflexivity|]); (split; [reflexivity|]);
    (split; [reflexivity|]); (split; [reflexivity|]);
    try reflexivity; eexists; split; reflexivity.
Qed.

(** X19. [redrawPreview] throws in one case only: on a rendered field
    that is not grey and holds an animation without frames. It has then
    cleared the group and drawn the background; nothing else of the field
    has changed and the host was not called. *)
Theorem redrawPreview_throws_only_without_frames (s : State Field H) :
  ((exists s', redrawPreview s = Throw s') <->
   isGreyBlock (this s) = false /\ fieldGroup_ (this s) <> None /\
   exists a interval,
     asset (this s) = Some a /\ asset_body a = AnimationBody [] interval) /\
  (forall s', redrawPreview s = Throw s' ->
     s' = {| this := set_fieldGroup_ (Some [previewBackground]) (this s);
             host := host s; log := log s |}).
Proof.
  destruct (canRedraw (this s)) eqn:Hcan.
  - destruct (redrawPreview_returns s Hcan) as (s1 & Hrun & _).
    rewrite Hrun. split; [split|].
    + intros (s' & Hthrow). discriminate.
    + intros Hcase. apply canRedraw_false in Hcase. congruence.
    + intros s' Hthrow. discriminate.
  - rewrite (redrawPreview_throws s Hcan). split; [split|].
    + intros _. apply canRedraw_false. exact Hcan.
    + intros _. eexists. reflexivity.
    + intros s' Hthrow. injection Hthrow as <-. reflexivity.
Qed.


(** X11. [render_] gives every field that is not grey the size 50 by 42,
    whatever the base class computed, and adds no text element to it. *)
Theorem render__fixes_size (s : State Field H) :
  isGreyBlock (this s) = false ->
  exists s',
    render_ s = Ok tt s' /\
    size_ (this s') = (50, 42)%Z /\
    textElement_ (this s') = textElement_ (this s) /\
    fieldGroup_ (this s') = fieldGroup_ (this s) /\
    asset (this s') = asset (this s) /\
    log s' = (log s ++ [SuperRender])%list.
Proof.
  intros Hgrey. destruct s as [f h l]. destruct f. cbn in Hgrey. subst.
  eexists. split; [reflexivity|]. repeat split.
Qed.

(** X12. The display text of a field is always a part of its unescaped
    text without any "(", followed by "(...)": the text up to its first
    "(", and nothing at all when the text has no "(". *)
Theorem getDisplayText__shape (f : Field) :
  let text := htmlUnescape (valueText f) in
  exists shown,
    getDisplayText_ f = shown ++ "(...)" /\
    indexOf "(" shown = (-1)%Z /\
    ((indexOf "(" text = (-1)%Z /\ shown = EmptyString) \/
     exists rest, text = shown ++ "(" ++ rest).
Proof.
  intros text. unfold getDisplayText_. fold text.
  destruct (split_at_first "(" text) as [Hnone|(pre & rest & Htext & Hpre)].
  - exists EmptyString. rewrite Hnone, substr_of_missing.
    split; [reflexivity|]. split; [reflexivity|]. left. split; reflexivity.
  - exists pre. rewrite Htext, substr_to_first by exact Hpre.
    split; [reflexivity|]. split; [exact Hpre|]. right. exists rest. reflexivity.
Qed.

End Drawing.

(** ** Taking a value: parseValueText and onValueChanged *)

Section TakingValues.

Context {H : Type} `{Host H} (sub : Subclass H).


(** X13. For a block in the flyout, or a field without a block,
    [onValueChanged] does nothing but redraw the preview: no asset is
    looked up or created, and the asset and the block data stay. It ends
    as the redraw ends: when that returns, the value returned is the value
    text of the field as it is, and when that throws, so does
    [onValueChanged]. *)
Theorem onValueChanged_in_flyout (s : State Field H) (newValue : string) :
  match sourceBlock_ (this s) with
  | Some sb => isInFlyout sb = true
  | None => True
  end ->
  onValueChanged sub newValue s =
    match redrawPreview s with
    | Ok _ s' => Ok (getValueText sub (this s')) s'
    | Throw s' => Throw s'
    end /\
  asset (this (final (onValueChanged sub newValue s))) = asset (this s) /\
  blockData (this (final (onValueChanged sub newValue s))) = blockData (this s) /\
  (canRedraw (this s) = true ->
   exists s',
     redrawPreview s = Ok tt s' /\
     onValueChanged sub newValue s = Ok (getValueText sub (this s')) s').
Proof.
  intros Hflyout.
  assert (onValueChanged sub newValue s =
          match redrawPreview s with
          | Ok _ s' => Ok (getValueText sub (this s')) s'
          | Throw s' => Throw s'
          end) as Hrun.
  { unfold onValueChanged, parseValueText, bind, ret, getThis.
    destruct (sourceBlock_ (this s)) as [sb|]; [rewrite Hflyout|];
      cbn -[redrawPreview]; destruct (redrawPreview s); reflexivity. }
  pose proof (redrawPreview_frame s)
    as (_ & _ & Ha & _ & _ & _ & _ & _ & _ & _ & _ & Hd).
  split; [exact Hrun|]. rewrite Hrun.
  split; [|split].
  - destruct (redrawPreview s); exact Ha.
  - destruct (redrawPreview s); exact Hd.
  - intros Hcan. destruct (redrawPreview_returns s Hcan) as (s' & Hdraw & _).
    exists s'. rewrite Hdraw. split; reflexivity.
Qed.


End TakingValues.

Section ReplacingAssets.

Context {H : Type} `{Host H} (sub : Subclass H).





End ReplacingAssets.

(** ** Disposal *)

Section Disposal.

Context {H : Type} `{Host H} (sub : Subclass H).



(** X18. Disposing of a field whose asset has no meta throws while it
    asks whether the asset is temporary: nothing is removed from the
    project, and the change listener stays registered. *)
Theorem onDispose_throws_without_meta (s : State Field H) (a : Asset) :
  asset (this s) = Some a -> asset_meta a = None ->
  onDispose sub s = Throw s.
Proof.
  intros Ha Hm. destruct s as [f h l]. destruct f. cbn in Ha. subst.
  destruct a as [i m b]. cbn in Hm. subst. reflexivity.
Qed.

End Disposal.

(** ** From one field to another *)

Section AcrossFields.

Context {H : Type} `{Host H} (sub : Subclass H).

Lemma settlingCalls_end (h : H) (sbo : option Block) (a : Asset) :
  exists before,
    settlingCalls h sbo a = (before ++ [ProjectUpdateAsset (settledAsset h sbo a)])%list.
Proof.
  unfold settlingCalls. destruct sbo as [sb|].
  - destruct (mustDuplicate h sb a).
    + exists [ProjectDuplicateAsset a]. reflexivity.
    + exists []. reflexivity.
  - exists []. reflexivity.
Qed.

(** X20. What one field writes the other reads. On a project that returns
    for an id the asset last written under it, once [updateAssetMeta] has
    settled the asset of a field, the change listener of any other field
    of that asset type whose block data is the asset's id, and which has
    no edit pending, leaves that field with the very asset the first
    field holds, its list of block ids included. *)
Theorem updateAssetMeta_seen_by_other_field (s : State Field H) (a : Asset)
  (other : Field) :
  (forall h x,
     lookupAsset (perform (ProjectUpdateAsset x) h) (asset_type x) (Some (asset_id x))
     = Some x) ->
  (forall h x, asset_meta x <> None -> asset_meta (duplicateAsset h x) <> None) ->
  asset (this s) = Some a ->
  exists s' a',
    updateAssetMeta s = Ok tt s' /\
    asset (this s') = Some a' /\
    (asset_type a' = getAssetType sub -> asset_id a' <> EmptyString ->
     pendingEdit other = false -> blockData other = Some (asset_id a') ->
     asset (this (final (assetChangeListener sub
                           {| this := other; host := host s'; log := log s' |})))
     = Some a').
Proof.
  intros Hwritten Hlaw Ha.
  rewrite (updateAssetMeta_run s a Ha)
    by (intros sb' _ Hd; apply Hlaw; exact (mustDuplicate_meta _ _ _ Hd)).
  set (a' := settledAsset (host s) (sourceBlock_ (this s)) a).
  eexists _, a'. split; [reflexivity|]. cbn [this host log]. split.
  { unfold settledField. destruct (this s); reflexivity. }
  intros Htype Hid Hp Hdata.
  rewrite assetChangeListener_asset by exact Hp. cbn [this host log].
  assert (truthy (blockData other) = true) as ->
    by (rewrite Hdata; destruct (asset_id a'); [congruence | reflexivity]).
  destruct (settlingCalls_end (host s) (sourceBlock_ (this s)) a) as (before & ->).
  fold a'. rewrite replay_app. cbn [replay fold_left].
  rewrite Hdata, <- Htype. apply Hwritten.
Qed.

End AcrossFields.

(** * The further properties at work *)

Section TileRuns.

Import BareHost.

Lemma showEditor__takes_in_project_tiles_witness :
  exists s' d' added,
    showEditor_ (levelField None) = Ok tt s' /\
    asset (this s') = Some (set_body (TilemapBody d') (level [tile "grass"] None)) /\
    tiles (tileset d') = ([tile "grass"] ++ added)%list /\
    (forall t, In t added ->
       In t [tile "grass"; tile "rock"; tile "rock"] /\ ~ In (tile_id t) ["grass"]) /\
    (forall t, In t [tile "grass"; tile "rock"; tile "rock"] ->
       In (tile_id t) (List.map tile_id (tiles (tileset d')))).
Proof.
  destruct (showEditor__takes_in_project_tiles (levelField None)
              (level [tile "grass"] None) (levelData None) eq_refl eq_refl eq_refl)
    as (s' & d' & added & Hrun & Ha & Ht & Hadded & Hall & _).
  exists s', d', added.
  split; [exact Hrun|]. split; [exact Ha|]. split; [exact Ht|].
  split; [exact Hadded | exact Hall].
Defined.

Lemma showEditor__keeps_tile_ids_distinct_witness :
  exists s' d',
    showEditor_ (levelField None) = Ok tt s' /\
    asset (this s') = Some (set_body (TilemapBody d') (level [tile "grass"] None)) /\
    NoDup (List.map tile_id (tiles (tileset d'))).
Proof.
  apply (showEditor__keeps_tile_ids_distinct (levelField None)
           (level [tile "grass"] None) (levelData None) eq_refl eq_refl eq_refl).
  cbn. apply NoDup_singleton.
Defined.

Lemma showEditor__recomputes_projectReferences_witness :
  exists s' d',
    showEditor_ (levelField (Some ["stale"])) = Ok tt s' /\
    asset (this s') =
      Some (set_body (TilemapBody d') (level [tile "grass"] (Some ["stale"]))) /\
    projectReferences d' = Some ["rock"; "rock"].
Proof.
  exact (showEditor__recomputes_projectReferences (levelField (Some ["stale"]))
           (level [tile "grass"] (Some ["stale"])) (levelData (Some ["stale"]))
           eq_refl eq_refl eq_refl).
Defined.

Lemma showEditor__throws_without_asset_witness :
  exists s',
    showEditor_ emptyField = Throw s' /\
    host s' = host emptyField /\ log s' = [] /\
    params_blocksInfo (params (this s')) = Some (BlocksInfoRef 1) /\
    asset (this s') = None.
Proof.
  exact (showEditor__throws_without_asset emptyField eq_refl eq_refl).
Defined.

Lemma updateAssetMeta_throws_only_on_bare_copy_witness :
  (exists s', updateAssetMeta meetsShared = Throw s') /\
  forall s', updateAssetMeta meetsShared = Throw s' ->
    asset (this s') = Some (bareCopy sharedImage) /\
    blockData (this s') = Some "level" /\
    log s' = [ProjectDuplicateAsset sharedImage].
Proof.
  destruct (updateAssetMeta_throws_only_on_bare_copy meetsShared sharedImage
              {| blockId := "b1"; isInFlyout := false |} eq_refl eq_refl)
    as (Hiff & Hstate).
  split; [apply (proj2 Hiff); split; reflexivity | exact Hstate].
Defined.

(** The editor returns the shared image to the field of the level, and
    to a field that holds nothing. *)
Lemma editorHidden_failure_mutes_listener_witness :
  let s' := final (editorHidden tilemapField (Some sharedImage) None (levelField None)) in
  editorHidden tilemapField (Some sharedImage) None emptyField = Throw emptyField /\
  editorHidden tilemapField (Some sharedImage) None (levelField None) = Throw s' /\
  pendingEdit (this s') = true /\
  assetChangeListener tilemapField s' = Ok tt s'.
Proof.
  intros s'.
  destruct (editorHidden_failure_mutes_listener tilemapField emptyField sharedImage None)
    as [Hnone _].
  destruct (editorHidden_failure_mutes_listener tilemapField (levelField None)
              sharedImage None) as [_ Hthrow].
  assert (editorHidden tilemapField (Some sharedImage) None (levelField None) = Throw s')
    as Hrun by (vm_compute; reflexivity).
  split; [exact (Hnone eq_refl)|]. split; [exact Hrun|].
  exact (Hthrow (level [tile "grass"] None) s' eq_refl Hrun).
Defined.

End TileRuns.

Section MoreRuns.

Import TestHost.

Lemma updateAssetMeta_twice_witness :
  exists s1 a1,
    updateAssetMeta meetsTemporary = Ok tt s1 /\
    asset (this s1) = Some a1 /\
    updateAssetMeta s1 =
    Ok tt {| this := this s1;
             host := perform (ProjectUpdateAsset a1) (host s1);
             log := (log s1 ++ [ProjectUpdateAsset a1])%list |}.
Proof.
  apply (updateAssetMeta_twice meetsTemporary temporary (block "b1") eq_refl eq_refl).
  intros _. discriminate.
Defined.

Lemma updateAssetMeta_without_block_witness :
  exists s' a' m,
    updateAssetMeta detached = Ok tt s' /\
    asset (this s') = Some a' /\
    asset_meta a' = Some m /\
    blockIDs m = Some ["b1"] /\
    blockData (this s') = None /\
    log s' = [ProjectUpdateAsset a'].
Proof.
  destruct (updateAssetMeta_without_block detached named eq_refl eq_refl)
    as (s' & a' & m & Hrun & Ha & Hm & Hids & _ & _ & _ & Hdata & Hlog).
  exists s', a', m. repeat split; assumption.
Defined.

Lemma redrawPreview_idempotent_witness :
  exists s1,
    redrawPreview (onBlock1 true) = Ok tt s1 /\
    redrawPreview s1 = Ok tt s1 /\
    fieldGroup_ (this s1) =
    Some [previewBackground;
          previewImage (bitmapToImageURI (H := T) blank 32 false)].
Proof.
  destruct (redrawPreview_idempotent (onBlock1 true) [] eq_refl eq_refl eq_refl)
    as (s1 & Hrun & Hagain & _ & _ & dataURI & Huri & Hgroup).
  exists s1. split; [exact Hrun|]. split; [exact Hagain|].
  rewrite Hgroup. injection Huri as <-. reflexivity.
Defined.

(** The animation without frames, on a rendered field. *)
Lemma redrawPreview_throws_only_without_frames_witness :
  let s := start (field (Some (flipbook [])) (Some (block "b1")) (Some "walk"))
                 (twoBlocks true) in
  exists s',
    redrawPreview s = Throw s' /\
    fieldGroup_ (this s') = Some [previewBackground] /\
    asset (this s') = Some (flipbook []).
Proof.
  intros s.
  destruct (redrawPreview_throws_only_without_frames s) as (Hiff & Hstate).
  destruct (proj2 Hiff) as (s' & Hthrow).
  { split; [reflexivity|]. split; [discriminate|].
    exists (flipbook []), 100%Z. split; reflexivity. }
  exists s'. split; [exact Hthrow|].
  rewrite (Hstate s' Hthrow). split; reflexivity.
Defined.


Lemma render__fixes_size_witness :
  exists s',
    render_ (onBlock1 true) = Ok tt s' /\
    size_ (this s') = (50, 42)%Z /\
    log s' = [SuperRender].
Proof.
  destruct (render__fixes_size (onBlock1 true) eq_refl)
    as (s' & Hrun & Hsize & _ & _ & _ & Hlog).
  exists s'. repeat split; assumption.
Defined.

(** The test project returns what was written last. *)
Lemma project_returns_written (h : T) (x : Asset) :
  lookupAsset (perform (ProjectUpdateAsset x) h) (asset_type x) (Some (asset_id x))
  = Some x.
Proof.
  cbn. unfold lookup. cbn. rewrite lookup_insert_eq.
  destruct (decide (asset_type x = asset_type x)); [reflexivity | congruence].
Defined.

(** The field on block b1 meets the temporary image of block b2 and gets
    the copy; a field on block b3 whose block data names the copy then
    reads it from the project. *)
Lemma updateAssetMeta_seen_by_other_field_witness :
  let other := field (Some named) (Some (block "b3")) (Some "t-copy") in
  exists s',
    updateAssetMeta meetsTemporary = Ok tt s' /\
    asset (this s') = Some (image "t-copy" None ["b1"] dot) /\
    asset (this (final (assetChangeListener imageField
                          {| this := other; host := host s'; log := log s' |})))
    = Some (image "t-copy" None ["b1"] dot).
Proof.
  intros other.
  destruct (updateAssetMeta_seen_by_other_field imageField meetsTemporary temporary
              other project_returns_written copy_keeps_meta eq_refl)
    as (s' & a' & Hrun & Ha & Hother).
  assert (a' = image "t-copy" None ["b1"] dot) as ->.
  { vm_compute in Hrun. injection Hrun as <-.
    vm_compute in Ha. injection Ha as <-. vm_compute. reflexivity. }
  exists s'. split; [exact Hrun|]. split; [exact Ha|].
  apply Hother; [reflexivity | discriminate | reflexivity | reflexivity].
Defined.

Lemma onValueChanged_in_flyout_witness :
  exists s',
    onValueChanged imageField "img`1`" inFlyout = Ok EmptyString s' /\
    asset (this s') = None /\ blockData (this s') = None.
Proof.
  destruct (onValueChanged_in_flyout imageField inFlyout "img`1`" eq_refl)
    as (_ & Ha & Hd & Hreturns).
  destruct (Hreturns eq_refl) as (s' & Hdraw & Hrun).
  exists s'. rewrite Hrun in Ha, Hd. cbn [final] in Ha, Hd.
  split; [|split; [exact Ha | exact Hd]].
  vm_compute in Hdraw. injection Hdraw as <-. exact Hrun.
Defined.





Lemma onDispose_throws_without_meta_witness :
  let s := start (field (Some bare) (Some (block "b1")) (Some "bare")) (twoBlocks true) in
  onDispose imageField s = Throw s.
Proof.
  intros s. exact (onDispose_throws_without_meta imageField s bare eq_refl eq_refl).
Defined.

End MoreRuns.
